(** * nodejs-demoapp: the login flow and its session state

    A shallow embedding of the authentication code of the demo application:
    the router module [routes/auth.mjs], the Graph helper module, and the two
    versions of the Express entry point (one that only mounts the router, one
    that also carries an inline login flow).

    Handlers are written in a small state-and-exception monad over the
    per-request state (the session object, the session store, the calls made
    to the identity provider and the response sent so far), so that each
    definition can be read next to the JavaScript it embeds. *)

From stdpp Require Import base option list strings gmap pretty.
From Stdlib Require Import Ascii NArith QArith Qround Lqa.
Close Scope Q_scope.

Open Scope string_scope.

(** ** JavaScript values the code handles *)

(** Exceptions the handlers can see. [AuthError] stands for the errors the
    MSAL client rejects with, [HttpError] for a rejected axios call. *)
Inductive AuthErrorCode := InvalidGrant | NetworkError | ConfigurationError.

Inductive Exn :=
| TypeError (msg : string)
| Error (msg : string)
| AuthError (code : AuthErrorCode) (msg : string)
| HttpError (status : nat) (msg : string).

Definition exn_message (e : Exn) : string :=
  match e with
  | TypeError m | Error m | AuthError _ m | HttpError _ m => m
  end.

(** Truthiness of a value that is a string or [undefined]. *)
Definition truthy (v : option string) : bool :=
  match v with
  | Some s => negb (String.eqb s "")
  | None => false
  end.

(** [process.env] *)
Abbreviation Env := (gmap string string).

(** ** Data model *)

(** [AccountInfo] of MSAL; [name] is optional there. *)
Record AccountInfo := {
  name : option string;
  username : string;
  tenantId : string;
  environment : string;
  homeAccountId : string
}.

(** What [acquireTokenByCode] resolves to ([account] may be [null]). *)
Record AuthenticationResult := {
  ar_account : option AccountInfo;
  ar_accessToken : string
}.

Record TokenRequest := {
  tr_code : option string;
  tr_scopes : list string;
  tr_redirectUri : option string;
  tr_codeVerifier : option string;
  tr_clientInfo : option string
}.

Record AuthCodeUrlParameters := {
  p_scopes : list string;
  p_redirectUri : option string;
  p_codeChallenge : option string;
  p_codeChallengeMethod : option string
}.

(** [req.session.pkceCodes]: created with the method only, the two codes are
    assigned afterwards. *)
Record PkceCodes := {
  challengeMethod : option string;
  verifier : option string;
  challenge : option string
}.

(** [req.session.user] *)
Record User := {
  u_account : AccountInfo;
  u_accessToken : string
}.

(** The properties the code reads or writes on [req.session]. The router
    module uses [pkceCodes] and [user], the inline flow [codeVerifier] and
    [accessToken]. *)
Record Session := {
  pkceCodes : option PkceCodes;
  user : option User;
  codeVerifier : option string;
  accessToken : option string
}.

Definition emptySession : Session :=
  {| pkceCodes := None; user := None; codeVerifier := None; accessToken := None |}.

#[global] Instance AuthErrorCode_eq_dec : EqDecision AuthErrorCode.
Proof. solve_decision. Defined.
#[global] Instance Exn_eq_dec : EqDecision Exn.
Proof. solve_decision. Defined.
#[global] Instance AccountInfo_eq_dec : EqDecision AccountInfo.
Proof. solve_decision. Defined.
#[global] Instance TokenRequest_eq_dec : EqDecision TokenRequest.
Proof. solve_decision. Defined.
#[global] Instance PkceCodes_eq_dec : EqDecision PkceCodes.
Proof. solve_decision. Defined.
#[global] Instance User_eq_dec : EqDecision User.
Proof. solve_decision. Defined.
#[global] Instance Session_eq_dec : EqDecision Session.
Proof. solve_decision. Defined.

(** Query string of a request: the code reads [code] and [client_info];
    [state] is what the provider echoes back. *)
Record Query := {
  q_code : option string;
  q_state : option string;
  q_client_info : option string
}.

(** ** Responses *)

Inductive ViewUser :=
| VAccount (a : AccountInfo)
| VUser (a : AccountInfo) (token : string).

Inductive Details := EmptyObject | Profile (data : string).

Record Locals := {
  title : string;
  message : option string;
  isAuthenticated : option bool;
  l_user : option ViewUser;
  details : option Details;
  photo : option string
}.

Inductive Response :=
| Redirect (url : string)
| Render (view : string) (locals : Locals)
| Send (status : nat) (body : string).

#[global] Instance ViewUser_eq_dec : EqDecision ViewUser.
Proof. solve_decision. Defined.
#[global] Instance Details_eq_dec : EqDecision Details.
Proof. solve_decision. Defined.
#[global] Instance Locals_eq_dec : EqDecision Locals.
Proof. solve_decision. Defined.
#[global] Instance Response_eq_dec : EqDecision Response.
Proof. solve_decision. Defined.

(** ** The handler monad *)

Inductive Completion (A : Type) :=
| Normal (a : A)
| Throw (e : Exn).
Arguments Normal {A} a.
Arguments Throw {A} e.

(** Per-request state. [req_session] is [None] once the session has been
    destroyed; [res] is [None] as long as no response has been sent;
    [tokenCalls] lists the requests sent to the provider's token endpoint,
    oldest first. *)
Record HState := {
  sessionID : string;
  store : gmap string Session;
  req_session : option Session;
  tokenCalls : list TokenRequest;
  res : option Response
}.

(** Computations over a state [S] that may throw. *)
Definition M (S A : Type) : Type := S → Completion A * S.

Definition ret {S A} (a : A) : M S A := λ st, (Normal a, st).

Definition bind {S A B} (m : M S A) (k : A → M S B) : M S B :=
  λ st, match m st with
        | (Normal a, st') => k a st'
        | (Throw e, st') => (Throw e, st')
        end.

Definition throw {S A} (e : Exn) : M S A := λ st, (Throw e, st).

(** [try { m } catch (err) { h err }]: what [m] did to the state before it
    threw stays done. *)
Definition try_catch {S A} (m : M S A) (h : Exn → M S A) : M S A :=
  λ st, match m st with
        | (Normal a, st') => (Normal a, st')
        | (Throw e, st') => h e st'
        end.

(** A route handler or middleware. *)
Abbreviation Handler := (M HState).

Declare Scope handler_scope.
Delimit Scope handler_scope with handler.
Notation "'let*' x ':=' m 'in' k" := (bind m (λ x, k))
  (at level 10, x name, m at level 100, k at level 200) : handler_scope.
Notation "m ;> k" := (bind m (λ _, k))
  (at level 100, right associativity) : handler_scope.
Open Scope handler_scope.

(** Lifting a fallible pure step ([await] of an external call, a property
    read that may hit [undefined]). *)
Definition lift {S A} (r : Exn + A) : M S A :=
  match r with
  | inl e => throw e
  | inr a => ret a
  end.

(** [req.session] (a [TypeError] once destroyed, as any property read on it
    would be). *)
Definition getSession : Handler Session :=
  λ st, match req_session st with
        | Some s => (Normal s, st)
        | None => (Throw (TypeError "Cannot read properties of undefined"), st)
        end.

Definition setSession (s : Session) : Handler unit :=
  λ st, (Normal (),
         {| sessionID := sessionID st; store := store st; req_session := Some s;
            tokenCalls := tokenCalls st; res := res st |}).

Definition respond (r : Response) : Handler unit :=
  λ st, (Normal (),
         {| sessionID := sessionID st; store := store st;
            req_session := req_session st;
            tokenCalls := tokenCalls st; res := Some r |}).

Definition redirect (url : string) : Handler unit := respond (Redirect url).
Definition render (view : string) (l : Locals) : Handler unit := respond (Render view l).
Definition send (status : nat) (body : string) : Handler unit := respond (Send status body).

(** [req.session.destroy(cb)]: the record is removed from the store, the
    session object is taken off the request, then the callback runs. *)
Definition sessionDestroy (cb : Handler unit) : Handler unit :=
  λ st, cb {| sessionID := sessionID st;
              store := delete (sessionID st) (store st);
              req_session := None;
              tokenCalls := tokenCalls st; res := res st |}.

(** ** The MSAL client

    The two calls the code makes on it. What the token endpoint answers may
    depend on the requests it has already seen (a code is redeemable once),
    so [acquireTokenByCode] takes that history. *)
Record MsalApp := {
  getAuthCodeUrl : AuthCodeUrlParameters → Exn + string;
  acquireTokenByCode : list TokenRequest → TokenRequest → Exn + AuthenticationResult
}.

(** [await msalApp.acquireTokenByCode(tokenRequest)]: one request to the
    token endpoint, recorded in [tokenCalls]. *)
Definition awaitToken (app : MsalApp) (tr : TokenRequest) : Handler AuthenticationResult :=
  λ st, let st' := {| sessionID := sessionID st; store := store st;
                      req_session := req_session st;
                      tokenCalls := tokenCalls st ++ [tr]; res := res st |} in
        match acquireTokenByCode app (tokenCalls st) tr with
        | inl e => (Throw e, st')
        | inr r => (Normal r, st')
        end.

(** [req.session?.…]: the session object if there still is one. *)
Definition peekSession : Handler (option Session) :=
  λ st, (Normal (req_session st), st).

(** Assignments to single properties of the session object. *)
Definition set_pkceCodes (p : option PkceCodes) (s : Session) : Session :=
  {| pkceCodes := p; user := user s;
     codeVerifier := codeVerifier s; accessToken := accessToken s |}.

Definition set_user (u : option User) (s : Session) : Session :=
  {| pkceCodes := pkceCodes s; user := u;
     codeVerifier := codeVerifier s; accessToken := accessToken s |}.

Definition set_codeVerifier (v : option string) (s : Session) : Session :=
  {| pkceCodes := pkceCodes s; user := user s;
     codeVerifier := v; accessToken := accessToken s |}.

Definition set_accessToken (t : option string) (s : Session) : Session :=
  {| pkceCodes := pkceCodes s; user := user s;
     codeVerifier := codeVerifier s; accessToken := t |}.

(** What is left on the request when a handler is over: [None] as the
    response means that none was sent (an exception escaped the handler). *)
Definition exec {A} (h : Handler A) (st : HState) : HState := snd (h st).

Definition crashed {A} (h : Handler A) (st : HState) : bool :=
  match fst (h st) with
  | Normal _ => false
  | Throw _ => true
  end.

(** ** Base64, as [Buffer.prototype.toString] produces it *)

Definition b64_digit (alphabet : string) (n : N) : ascii :=
  default "="%char (String.get (N.to_nat n) alphabet).

Definition b64_std : string :=
  "ABCDEFGHIJKLMNOPQRSTUVWXYZabcdefghijklmnopqrstuvwxyz0123456789+/".
Definition b64_url : string :=
  "ABCDEFGHIJKLMNOPQRSTUVWXYZabcdefghijklmnopqrstuvwxyz0123456789-_".

(** [pad] is the padding appended to an incomplete last group ("=" for
    'base64', nothing for 'base64url'). *)
Fixpoint b64_encode (alphabet pad : string) (s : string) : string :=
  let d := b64_digit alphabet in
  match s with
  | EmptyString => EmptyString
  | String a EmptyString =>
      let x := N_of_ascii a in
      String (d (x / 4)) (String (d ((x mod 4) * 16)) (pad ++ pad))
  | String a (String b EmptyString) =>
      let x := N_of_ascii a in
      let y := N_of_ascii b in
      String (d (x / 4))
        (String (d ((x mod 4) * 16 + y / 16))
           (String (d ((y mod 16) * 4)) pad))
  | String a (String b (String c rest)) =>
      let x := N_of_ascii a in
      let y := N_of_ascii b in
      let z := N_of_ascii c in
      String (d (x / 4))
        (String (d ((x mod 4) * 16 + y / 16))
           (String (d ((y mod 16) * 4 + z / 64))
              (String (d (z mod 64)) (b64_encode alphabet pad rest))))
  end%N.

Definition base64 : string → string := b64_encode b64_std "=".
Definition base64url : string → string := b64_encode b64_url "".

(** ** The Graph helper module *)

Module Graph.

Record GraphReq := {
  url : string;
  responseType : option string;
  authorization : string
}.

Section Helpers.
Context {S : Type}.
(** [axios(graphReq)]: the response body ([resp.data]) or a rejection. *)
Variable axios : GraphReq → Exn + string.

(** The template literal [`Bearer ${accessToken}`]. *)
Definition bearer (accessToken : option string) : string :=
  "Bearer " ++ default "undefined" accessToken.

Definition getUserDetails (accessToken : option string) : M S (option string) :=
  if negb (truthy accessToken) then ret None
  else
    try_catch
      (let graphReq := {| url := "https://graph.microsoft.com/v1.0/me";
                          responseType := None;
                          authorization := bearer accessToken |} in
       let* data := lift (axios graphReq) in
       ret (Some data))
      (λ err, ret None).

Definition getUserPhoto (accessToken : option string) : M S (option string) :=
  if negb (truthy accessToken) then ret None
  else
    try_catch
      (let graphReq := {| url := "https://graph.microsoft.com/v1.0/me/photo/$value";
                          responseType := Some "arraybuffer";
                          authorization := bearer accessToken |} in
       let* data := lift (axios graphReq) in
       ret (Some (base64 data)))
      (λ err, ret None).
End Helpers.

End Graph.

(** ** The router module, [routes/auth.mjs] *)

(** Configuration handed to [new msal.PublicClientApplication]. *)
Record MsalConfig := {
  clientId : option string;
  authority : string;
  knownAuthorities : list string;
  cfg_redirectUri : option string
}.

Module Router.

Definition AUTH_SCOPES : list string := ["user.read"].
Definition AUTH_CALLBACK_PATH : string := "signin".

Section Routes.
(** The MSAL constructor, [process.env], and axios. *)
Variable PublicClientApplication : MsalConfig → MsalApp.
Variable env : Env.
Variable axios : Graph.GraphReq → Exn + string.

(** [let msalApp], assigned only under [if (process.env.ENTRA_APP_ID)]. *)
Definition msalApp : option MsalApp :=
  if truthy (env !! "ENTRA_APP_ID") then
    Some (PublicClientApplication
            {| clientId := env !! "ENTRA_APP_ID";
               authority := "https://login.microsoftonline.com/"
                            ++ default "undefined" (env !! "ENTRA_TENANT_ID");
               knownAuthorities := [];
               cfg_redirectUri := env !! "AUTH_REDIRECT_URI" |})
  else None.

(** A method call on [msalApp]: a [TypeError] while it is [undefined]. *)
Definition theMsalApp : Handler MsalApp :=
  match msalApp with
  | Some app => ret app
  | None => throw (TypeError "Cannot read properties of undefined")
  end.

(** [req.session?.user?.account] *)
Definition sessionAccount (s : option Session) : option AccountInfo :=
  u_account <$> (s ≫= user).

Definition ensureAuthenticated (next : Handler unit) : Handler unit :=
  let* s := peekSession in
  if negb (bool_decide (is_Some (sessionAccount s))) then redirect "/login"
  else next.

(** [GET /login]. [pkce] is what [cryptoProvider.generatePkceCodes()]
    yields on this request: the pair (verifier, challenge), or an error. *)
Definition login (pkce : Exn + (string * string)) : Handler unit :=
  let redirectUri := env !! "AUTH_REDIRECT_URI" in
  try_catch
    (let* codes := lift pkce in
     let* s := getSession in
     (if negb (bool_decide (is_Some (pkceCodes s))) then
        setSession
          (set_pkceCodes (Some {| challengeMethod := Some "S256";
                                  verifier := None; challenge := None |}) s)
      else ret ()) ;>
     let* s := getSession in
     let* p := lift (from_option inr (inl (TypeError "pkceCodes")) (pkceCodes s)) in
     setSession
       (set_pkceCodes (Some {| challengeMethod := challengeMethod p;
                               verifier := Some (fst codes);
                               challenge := Some (snd codes) |}) s) ;>
     let* s := getSession in
     let* p := lift (from_option inr (inl (TypeError "pkceCodes")) (pkceCodes s)) in
     let authCodeUrlParameters :=
       {| p_scopes := AUTH_SCOPES;
          p_redirectUri := redirectUri;
          p_codeChallenge := challenge p;
          p_codeChallengeMethod := challengeMethod p |} in
     let* app := theMsalApp in
     let* authCodeUrl := lift (getAuthCodeUrl app authCodeUrlParameters) in
     if negb (truthy (Some authCodeUrl)) then
       throw (Error "ERROR! Failed to get auth code url")
     else redirect authCodeUrl)
    (λ err,
       let* s := peekSession in
       render "error"
         {| title := "PKCE redirect error";
            message := Some (exn_message err);
            isAuthenticated := Some (bool_decide (is_Some (sessionAccount s)));
            l_user := VAccount <$> sessionAccount s;
            details := None; photo := None |}).

(** [GET /signin], the callback of the provider. The token request is
    built before the [try]: reading [pkceCodes.verifier] on a session
    without [pkceCodes] throws out of the handler. *)
Definition signin (query : Query) : Handler unit :=
  let redirectUri := env !! "AUTH_REDIRECT_URI" in
  let* s := getSession in
  let* p := lift (from_option inr
                    (inl (TypeError "Cannot read properties of undefined (reading 'verifier')"))
                    (pkceCodes s)) in
  let tokenRequest :=
    {| tr_code := q_code query;
       tr_scopes := AUTH_SCOPES;
       tr_redirectUri := redirectUri;
       tr_codeVerifier := verifier p;
       tr_clientInfo := q_client_info query |} in
  try_catch
    (let* app := theMsalApp in
     let* tokenResponse := awaitToken app tokenRequest in
     let* a := lift (from_option inr
                       (inl (TypeError "Cannot read properties of null (reading 'name')"))
                       (ar_account tokenResponse)) in
     let* s := getSession in
     setSession
       (set_user (Some {| u_account := {| name := name a;
                                          username := username a;
                                          tenantId := tenantId a;
                                          environment := environment a;
                                          homeAccountId := homeAccountId a |};
                          u_accessToken := ar_accessToken tokenResponse |}) s) ;>
     redirect "/account")
    (λ err,
       render "error"
         {| title := "Authentication Error";
            message := Some (exn_message err);
            isAuthenticated := Some false;
            l_user := None;
            details := None; photo := None |}).

(** [GET /logout] *)
Definition logout : Handler unit :=
  sessionDestroy (redirect "/").

(** The body of [GET /account] (the route puts [ensureAuthenticated] in
    front of it). [details] starts as the empty object and [photo] as
    [null]; an exception in the [try] keeps what was assigned so far. *)
Definition accountBody : Handler unit :=
  let* dp :=
    try_catch
      (let* s := getSession in
       let* u := lift (from_option inr (inl (TypeError "user")) (user s)) in
       let* d := Graph.getUserDetails axios (Some (u_accessToken u)) in
       try_catch
         (let* ph := Graph.getUserPhoto axios (Some (u_accessToken u)) in
          ret (Profile <$> d, ph))
         (λ err, ret (Profile <$> d, None)))
      (λ err, ret (Some EmptyObject, None)) in
  let* s := getSession in
  let* u := lift (from_option inr (inl (TypeError "user")) (user s)) in
  render "account"
    {| title := "Node DemoApp: Account";
       message := None;
       isAuthenticated := Some true;
       l_user := Some (VUser (u_account u) (u_accessToken u));
       details := Some (default EmptyObject (fst dp));
       photo := snd dp |}.

Definition account : Handler unit := ensureAuthenticated accountBody.

End Routes.

End Router.

(** ** The inline login flow of the entry point *)

Module Inline.

Definition REDIRECT_URI : string :=
  "https://nodejs-demoapp.lemonrock-97154e27.canadacentral.azurecontainerapps.io/signin".

(** The configuration module the entry point imports as [authConfig]. *)
Definition authConfig : MsalConfig :=
  {| clientId := Some "0b2f7424-ac58-413e-91cf-c1b97c16f3f7";
     authority := "https://login.microsoftonline.com/99d1cd35-2846-46f1-935e-59047152a180";
     knownAuthorities := ["login.microsoftonline.com"];
     cfg_redirectUri := Some "http://localhost:3000/signin" |}.

Section Routes.
(** The MSAL constructor, [process.env], SHA-256 and
    [encodeURIComponent]. *)
Variable PublicClientApplication : MsalConfig → MsalApp.
Variable env : Env.
Variable sha256 : string → string.
Variable encodeURIComponent : string → string.

Definition msalClient : MsalApp := PublicClientApplication authConfig.

(** [randomBytes] are the 32 bytes [crypto.randomBytes(32)] returns. *)
Definition generateCodeVerifier (randomBytes : string) : string :=
  base64url randomBytes.

Definition generateCodeChallenge (codeVerifier : string) : string :=
  base64url (sha256 codeVerifier).

(** [GET /login] *)
Definition login (randomBytes : string) : Handler unit :=
  let codeVerifier := generateCodeVerifier randomBytes in
  let codeChallenge := generateCodeChallenge codeVerifier in
  let* s := getSession in
  setSession (set_codeVerifier (Some codeVerifier) s) ;>
  let authCodeUrlParameters :=
    {| p_scopes := ["user.read"];
       p_redirectUri := Some REDIRECT_URI;
       p_codeChallenge := Some codeChallenge;
       p_codeChallengeMethod := Some "S256" |} in
  try_catch
    (let* response := lift (getAuthCodeUrl msalClient authCodeUrlParameters) in
     redirect response)
    (λ error, send 500 "Authentication initialization failed").

(** [GET /signin] *)
Definition signin (query : Query) : Handler unit :=
  let* s := getSession in
  let tokenRequest :=
    {| tr_code := q_code query;
       tr_scopes := ["user.read"];
       tr_redirectUri := Some REDIRECT_URI;
       tr_codeVerifier := codeVerifier s;
       tr_clientInfo := None |} in
  try_catch
    (let* response := awaitToken msalClient tokenRequest in
     let* s := getSession in
     setSession (set_accessToken (Some (ar_accessToken response)) s) ;>
     redirect "/")
    (λ error, redirect "/login").

Definition ensureAuthenticated (next : Handler unit) : Handler unit :=
  let* s := getSession in
  if truthy (accessToken s) then next
  else redirect "/login".

(** [GET /] *)
Definition root : Handler unit :=
  ensureAuthenticated
    (let* s := getSession in
     render "index"
       {| title := "Home";
          message := None;
          isAuthenticated := Some (truthy (accessToken s));
          l_user := (λ u, VUser (u_account u) (u_accessToken u)) <$> user s;
          details := None; photo := None |}).

(** [GET /protected] *)
Definition protected : Handler unit :=
  ensureAuthenticated (send 200 "This is a protected route.").

(** [GET /logout] *)
Definition logout : Handler unit :=
  let logoutUri := "https://" ++ default "undefined" (env !! "WEBSITE_HOSTNAME") in
  sessionDestroy
    (let logoutUrl :=
       "https://login.microsoftonline.com/"
       ++ default "undefined" (env !! "AZURE_TENANT_ID")
       ++ "/oauth2/v2.0/logout?post_logout_redirect_uri="
       ++ encodeURIComponent logoutUri in
     redirect logoutUrl).

End Routes.

End Inline.

(** ** The entry points and their route tables *)

(** What a registered GET route runs. [Other] stands for the routes outside
    the login flow (pages, API, todo, metrics, health). *)
Inductive Endpoint :=
| RouterLogin | RouterSignin | RouterLogout | RouterAccount
| RouterAuthStatus | RouterDebugSession
| InlineLogin | InlineSignin | InlineRoot | InlineProtected | InlineLogout
| Other (module_ path : string).

#[global] Instance Endpoint_eq_dec : EqDecision Endpoint.
Proof. solve_decision. Defined.

Abbreviation Route := (string * Endpoint)%type.

(** The login, callback, logout and account routes of either flow. *)
Definition isAuthRoute (e : Endpoint) : bool :=
  match e with
  | RouterLogin | RouterSignin | RouterLogout | RouterAccount
  | InlineLogin | InlineSignin | InlineLogout => true
  | _ => false
  end.

(** The routes [routes/auth.mjs] puts on its router, in order. *)
Definition authRoutes : list Route :=
  [ ("/login", RouterLogin);
    ("/" ++ Router.AUTH_CALLBACK_PATH, RouterSignin);
    ("/logout", RouterLogout);
    ("/account", RouterAccount);
    ("/auth-status", RouterAuthStatus);
    ("/debug-session", RouterDebugSession) ].

Definition otherRoutes (module_ : string) (paths : list string) : list Route :=
  (λ p, (p, Other module_ p)) <$> paths.

(** The routes of [routes/pages.mjs]. *)
Definition pageRoutes : list Route :=
  otherRoutes "pages"
    ["/"; "/info"; "/monitor"; "/weather"; "/tools"; "/tools/load";
     "/tools/error"; "/tools/gc"; "/hello"].

(** [if (cond) app.use('/', routes)] *)
Definition mountIf (cond : bool) (routes : list Route) : list Route :=
  if cond then routes else [].

(** The first route registered for the path answers. *)
Definition dispatch (table : list Route) (path : string) : option Endpoint :=
  snd <$> find (λ r, String.eqb (fst r) path) table.

Section EntryPoints.
(** Paths served by the modules outside the login flow that the entry
    points import ([routes/api.mjs], [todo/routes.mjs],
    [routes/metrics.mjs]). *)
Variables apiPaths todoPaths metricsPaths : list string.
Variable env : Env.

Definition commonRoutes : list Route :=
  mountIf (negb (bool_decide (env !! "DISABLE_METRICS" = Some "true")))
          (otherRoutes "metrics" metricsPaths)
  ++ pageRoutes
  ++ otherRoutes "api" apiPaths
  ++ mountIf (truthy (env !! "ENTRA_APP_ID")) authRoutes
  ++ mountIf (truthy (env !! "TODO_MONGO_CONNSTR")) (otherRoutes "todo" todoPaths).

(** The entry point that leaves the login flow to the router module. *)
Definition serverRoutes : list Route :=
  [ ("/", Other "server" "/"); ("/health", Other "server" "/health") ]
  ++ commonRoutes.

(** The entry point that carries the inline flow. *)
Definition serverInlineRoutes : list Route :=
  [ ("/login", InlineLogin);
    ("/signin", InlineSignin);
    ("/", InlineRoot);
    ("/protected", InlineProtected);
    ("/logout", InlineLogout);
    ("/health", Other "server" "/health") ]
  ++ commonRoutes.
End EntryPoints.

(** ** Requests against the session store *)

(** The state that outlives a request: the session store and the requests
    the provider's token endpoint has received. *)
Record World := {
  sessions : gmap string Session;
  idpCalls : list TokenRequest
}.

Definition initialWorld : World := {| sessions := ∅; idpCalls := [] |}.

(** A request, with what the environment decides while it is served:
    [freshID] is the identifier the session middleware generates if it has
    to start a session, [pkce] what [generatePkceCodes()] yields and
    [randomBytes] what [crypto.randomBytes(32)] returns. *)
Record Request := {
  path : string;
  query : Query;
  cookie : option string;
  freshID : string;
  pkce : Exn + (string * string);
  randomBytes : string
}.

(** The session middleware, configured with [resave: false] and
    [saveUninitialized: false]: the cookie's session is loaded if the store
    has it, otherwise a new empty session is started; when the response ends
    the session is written back if the handler changed it.

    When an exception escapes the handler no response is sent and nothing
    is written back. The world [withSession] gives then is the store as the
    handler left it and no more than that: what the runtime makes of the
    rejected promise (the process may end, and a store kept in memory with
    it) is outside this model. *)
Definition loadSession (w : World) (r : Request) : string * Session :=
  match cookie r with
  | Some sid =>
      match sessions w !! sid with
      | Some s => (sid, s)
      | None => (freshID r, emptySession)
      end
  | None => (freshID r, emptySession)
  end.

Definition withSession (h : Handler unit) (w : World) (r : Request)
  : World * option Response :=
  let ls := loadSession w r in
  let st := exec h {| sessionID := fst ls; store := sessions w;
                      req_session := Some (snd ls);
                      tokenCalls := idpCalls w; res := None |} in
  let store' :=
    match res st, req_session st with
    | Some _, Some s' =>
        if decide (s' = snd ls) then store st else <[fst ls := s']> (store st)
    | _, _ => store st
    end in
  ({| sessions := store'; idpCalls := tokenCalls st |}, res st).

Section App.
Variable PublicClientApplication : MsalConfig → MsalApp.
Variable env : Env.
Variable axios : Graph.GraphReq → Exn + string.
Variable sha256 : string → string.
Variable encodeURIComponent : string → string.

(** The handler behind an endpoint of the login flow. *)
Definition handlerOf (e : Endpoint) (r : Request) : option (Handler unit) :=
  match e with
  | RouterLogin => Some (Router.login PublicClientApplication env (pkce r))
  | RouterSignin => Some (Router.signin PublicClientApplication env (query r))
  | RouterLogout => Some Router.logout
  | RouterAccount => Some (Router.account axios)
  | InlineLogin => Some (Inline.login PublicClientApplication sha256 (randomBytes r))
  | InlineSignin => Some (Inline.signin PublicClientApplication (query r))
  | InlineRoot => Some Inline.root
  | InlineProtected => Some Inline.protected
  | InlineLogout => Some (Inline.logout env encodeURIComponent)
  | RouterAuthStatus | RouterDebugSession | Other _ _ => None
  end.

(** Serving one request on an application with the given route table;
    [None] for a path that does not lead into the login flow. *)
Definition serve (table : list Route) (w : World) (r : Request)
  : option (World * option Response) :=
  e ← dispatch table (path r);
  h ← handlerOf e r;
  Some (withSession h w r).

(** Serving requests one after the other, dropping the responses. *)
Fixpoint serveAll (table : list Route) (w : World) (rs : list Request)
  : option World :=
  match rs with
  | [] => Some w
  | r :: rs' =>
      match serve table w r with
      | Some (w', _) => serveAll table w' rs'
      | None => None
      end
  end.

(** The worlds an application can be in. *)
Inductive Reachable (table : list Route) : World → Prop :=
| reach_init : Reachable table initialWorld
| reach_step w r w' resp :
    Reachable table w →
    serve table w r = Some (w', resp) →
    Reachable table w'.
End App.

(** ** The states of the specification, read off a session *)

Inductive AuthState := Anonymous | PendingAuthorization | Authenticated.

(** Whether the pkce pair, resp. identity and access token, are on the
    session (the fields of the router module). *)
Definition pkcePresent (s : Session) : bool :=
  match pkceCodes s with
  | Some p => bool_decide (is_Some (verifier p)) && bool_decide (is_Some (challenge p))
  | None => false
  end.

Definition identityPresent (s : Session) : bool :=
  bool_decide (is_Some (user s)).

(** The state of a session as the router module sees it: authenticated is
    what its middleware lets through. *)
Definition stateOf (s : Session) : AuthState :=
  if identityPresent s then Authenticated
  else if bool_decide (is_Some (pkceCodes s ≫= verifier)) then PendingAuthorization
  else Anonymous.

(** The same for the inline flow and its two fields. *)
Definition inlineStateOf (s : Session) : AuthState :=
  if truthy (accessToken s) then Authenticated
  else if bool_decide (is_Some (codeVerifier s)) then PendingAuthorization
  else Anonymous.

(** The state of a handler at the start of a request. *)
Definition entry (sid : string) (sessions : gmap string Session) (s : Session)
    (calls : list TokenRequest) : HState :=
  {| sessionID := sid; store := sessions; req_session := Some s;
     tokenCalls := calls; res := None |}.

(** Sending a response and nothing else. *)
Definition responded (r : Response) (st : HState) : HState :=
  {| sessionID := sessionID st; store := store st;
     req_session := req_session st; tokenCalls := tokenCalls st;
     res := Some r |}.

(** The correlation value of the specification: the [state] parameter of the
    authorization request is the session identifier, and the callback is to
    bring it back. *)
Definition stateMatches (sid : string) (q : Query) : bool :=
  bool_decide (q_state q = Some sid).

Definition withState (x : option string) (q : Query) : Query :=
  {| q_code := q_code q; q_state := x; q_client_info := q_client_info q |}.

(** The token requests the two callbacks send. *)
Definition routerTokenRequest (env : Env) (q : Query) (p : PkceCodes) : TokenRequest :=
  {| tr_code := q_code q;
     tr_scopes := Router.AUTH_SCOPES;
     tr_redirectUri := env !! "AUTH_REDIRECT_URI";
     tr_codeVerifier := verifier p;
     tr_clientInfo := q_client_info q |}.

Definition inlineTokenRequest (q : Query) (s : Session) : TokenRequest :=
  {| tr_code := q_code q;
     tr_scopes := ["user.read"];
     tr_redirectUri := Some Inline.REDIRECT_URI;
     tr_codeVerifier := codeVerifier s;
     tr_clientInfo := None |}.

(** The session record the router callback stores on success. *)
Definition userOf (r : AuthenticationResult) (a : AccountInfo) : User :=
  {| u_account := a; u_accessToken := ar_accessToken r |}.

(** ** A concrete scenario *)

Module Scenario.

Definition alice : AccountInfo :=
  {| name := Some "Alice"; username := "alice@example.com";
     tenantId := "tenant-1"; environment := "login.windows.net";
     homeAccountId := "uid.utid" |}.

Definition aliceResult : AuthenticationResult :=
  {| ar_account := Some alice; ar_accessToken := "token-1" |}.

(** A provider that redeems the code "ABC" once, for a request that
    carries a verifier. *)
Definition redeemed (history : list TokenRequest) : bool :=
  existsb (λ tr, bool_decide (tr_code tr = Some "ABC")) history.

Definition provider (cfg : MsalConfig) : MsalApp :=
  {| getAuthCodeUrl := λ p,
       inr ("https://login.microsoftonline.com/common/oauth2/v2.0/authorize?code_challenge="
            ++ default "" (p_codeChallenge p));
     acquireTokenByCode := λ history tr,
       if bool_decide (tr_code tr = Some "ABC")
          && bool_decide (is_Some (tr_codeVerifier tr))
          && negb (redeemed history)
       then inr aliceResult
       else inl (AuthError InvalidGrant "invalid_grant") |}.

Definition env : Env :=
  {[ "ENTRA_APP_ID" := "app-1";
     "ENTRA_TENANT_ID" := "tenant-1";
     "AUTH_REDIRECT_URI" := "http://localhost:3000/signin" ]}.

Definition noEnv : Env := ∅.

Definition axiosDown (r : Graph.GraphReq) : Exn + string :=
  inl (HttpError 503 "Service Unavailable").


Definition sha256 (s : string) : string := s.
Definition encodeURIComponent (s : string) : string := s.

Definition callback (state : string) : Query :=
  {| q_code := Some "ABC"; q_state := Some state; q_client_info := None |}.

Definition noQuery : Query :=
  {| q_code := None; q_state := None; q_client_info := None |}.

Definition request (path : string) (q : Query) (cookie : option string) : Request :=
  {| path := path; query := q; cookie := cookie; freshID := "S1";
     pkce := inr ("verifier-1", "challenge-1");
     randomBytes := "0123456789abcdef0123456789abcdef" |}.

Definition pending : Session :=
  set_pkceCodes (Some {| challengeMethod := Some "S256";
                         verifier := Some "verifier-1";
                         challenge := Some "challenge-1" |}) emptySession.

Definition loggedIn : Session :=
  set_user (Some {| u_account := alice; u_accessToken := "token-1" |}) pending.

(** The router-only application and the one with the inline flow, in the
    scenario's environment. *)
Definition app : list Route := serverRoutes [] [] [] env.
Definition inlineApp : list Route := serverInlineRoutes [] [] [] noEnv.

Definition serveApp (table : list Route) (e : Env) :=
  serve provider e axiosDown sha256 encodeURIComponent table.

Definition serveAllApp (table : list Route) (e : Env) :=
  serveAll provider e axiosDown sha256 encodeURIComponent table.

Definition ReachableApp (table : list Route) (e : Env) :=
  Reachable provider e axiosDown sha256 encodeURIComponent table.

(** Three requests of one browser: login, then the callback twice. *)
Definition loginRequest : Request := request "/login" noQuery None.
Definition callbackRequest : Request := request "/signin" (callback "S1") (Some "S1").
Definition forgedCallback : Request := request "/signin" (callback "S2") (Some "S1").

Definition badCallback : Query :=
  {| q_code := Some "XYZ"; q_state := Some "S1"; q_client_info := None |}.

Definition tokenRequest1 : TokenRequest :=
  {| tr_code := Some "ABC"; tr_scopes := ["user.read"];
     tr_redirectUri := Some "http://localhost:3000/signin";
     tr_codeVerifier := Some "verifier-1"; tr_clientInfo := None |}.

(** The worlds of the scenario: a login under way, the user signed in,
    the user signed out, and another browser starting a login after that. *)
Definition wPending : World :=
  {| sessions := {[ "S1" := pending ]}; idpCalls := [] |}.
Definition wLoggedIn : World :=
  {| sessions := {[ "S1" := loggedIn ]}; idpCalls := [tokenRequest1] |}.
Definition wLoggedOut : World :=
  {| sessions := ∅; idpCalls := [tokenRequest1] |}.
Definition wLater : World :=
  {| sessions := {[ "S2" := pending ]}; idpCalls := [tokenRequest1] |}.

Definition logoutRequest : Request := request "/logout" noQuery (Some "S1").
Definition accountRequest : Request := request "/account" noQuery (Some "S1").
Definition otherLogin : Request :=
  {| path := "/login"; query := noQuery; cookie := None; freshID := "S2";
     pkce := inr ("verifier-1", "challenge-1");
     randomBytes := "0123456789abcdef0123456789abcdef" |}.

End Scenario.

(** ** The two flows side by side *)

Inductive Flow := RouterFlow | InlineFlow.

Section Flows.
Variable PublicClientApplication : MsalConfig → MsalApp.
Variable env : Env.

(** The callback handler of a flow, its middleware, and where the callback
    sends the browser on success. *)
Definition signinOf (f : Flow) (q : Query) : Handler unit :=
  match f with
  | RouterFlow => Router.signin PublicClientApplication env q
  | InlineFlow => Inline.signin PublicClientApplication q
  end.

Definition ensureAuthenticatedOf (f : Flow) (next : Handler unit) : Handler unit :=
  match f with
  | RouterFlow => Router.ensureAuthenticated next
  | InlineFlow => Inline.ensureAuthenticated next
  end.

Definition landingOf (f : Flow) : string :=
  match f with
  | RouterFlow => "/account"
  | InlineFlow => "/"
  end.

Definition flowStateOf (f : Flow) (s : Session) : AuthState :=
  match f with
  | RouterFlow => stateOf s
  | InlineFlow => inlineStateOf s
  end.

(** The MSAL client a flow calls, if it has one. *)
Definition msalOf (f : Flow) : option MsalApp :=
  match f with
  | RouterFlow => Router.msalApp PublicClientApplication env
  | InlineFlow => Some (Inline.msalClient PublicClientApplication)
  end.

(** The token request the callback of a flow builds for a session; the
    router needs [pkceCodes] on the session for it. *)
Definition tokenRequestOf (f : Flow) (q : Query) (s : Session) : option TokenRequest :=
  match f with
  | RouterFlow => routerTokenRequest env q <$> pkceCodes s
  | InlineFlow => Some (inlineTokenRequest q s)
  end.
End Flows.

(** Whether a middleware lets a request with this session through to the
    handler behind it. *)
Definition accepts (mw : Handler unit → Handler unit) (s : Session) : bool :=
  bool_decide (res (exec (mw (send 200 "content")) (entry "" ∅ s []))
               = Some (Send 200 "content")).

(** The endpoints behind the access-control middleware, and the two logout
    endpoints. *)
Definition isProtected (e : Endpoint) : bool :=
  match e with
  | RouterAccount | InlineRoot | InlineProtected => true
  | _ => false
  end.

Definition isLogout (e : Endpoint) : bool :=
  match e with
  | RouterLogout | InlineLogout => true
  | _ => false
  end.

(** What the router module guarantees of every stored session: identity and
    access token only ever come on top of a complete pkce pair. *)
Definition sessionInv (s : Session) : Prop :=
  match pkceCodes s with
  | Some p => is_Some (challengeMethod p) ∧ is_Some (verifier p) ∧ is_Some (challenge p)
  | None => user s = None
  end.





(** What every handler of the login flow respects: it keeps the session
    identifier, it either leaves the store alone or destroys the request's
    own session, and it only turns sessions that satisfy [sessionInv] into
    sessions that do. *)
Definition wellBehaved (h : Handler unit) : Prop :=
  ∀ sid (sessions : gmap string Session) s calls,
    let st' := exec h (entry sid sessions s calls) in
    sessionID st' = sid ∧
    match req_session st' with
    | Some s' => store st' = sessions ∧ (sessionInv s → sessionInv s')
    | None => store st' = delete sid sessions
    end.

(** Applications whose login flow is the router module alone. *)
Definition isInlineEndpoint (e : Endpoint) : bool :=
  match e with
  | InlineLogin | InlineSignin | InlineRoot | InlineProtected | InlineLogout => true
  | _ => false
  end.

(** The routes that hang on the router module, which the entry points mount
    only under [ENTRA_APP_ID]. *)
Definition isRouterEndpoint (e : Endpoint) : bool :=
  match e with
  | RouterLogin | RouterSignin | RouterLogout | RouterAccount
  | RouterAuthStatus | RouterDebugSession => true
  | _ => false
  end.

(** The login, callback and logout routes the entry point with the inline
    flow registers itself. *)
Definition inlineAuthRoutes : list Route :=
  [ ("/login", InlineLogin); ("/signin", InlineSignin); ("/logout", InlineLogout) ].

Definition routerOnly (table : list Route) : Prop :=
  Forall (λ r : Route, isInlineEndpoint (snd r) = false) table.

(** What the handlers of the router module respect in addition: on a new
    session, or one that carries the pkce pair, they leave the session as
    it is or leave it with the pair. *)
Definition keepsPkce (h : Handler unit) : Prop :=
  ∀ sid (sessions : gmap string Session) s calls,
    s = emptySession ∨ pkcePresent s = true →
    match req_session (exec h (entry sid sessions s calls)) with
    | Some s' => s' = s ∨ pkcePresent s' = true
    | None => True
    end.

(** Whether serving the request with this handler ends in an exception
    thrown out of the handler. *)
Definition crashes (h : Handler unit) (w : World) (r : Request) : bool :=
  crashed h (entry (fst (loadSession w r)) (sessions w) (snd (loadSession w r))
               (idpCalls w)).

(** ** The routes that report on the session *)

(** What [res.json] is given. *)
#[local] Unset Elimination Schemes.
Inductive Json :=
| JNull
| JBool (b : bool)
| JString (s : string)
| JObject (fields : list (string * Json)).
#[local] Set Elimination Schemes.

(** A property whose value may be [undefined]: [res.json] leaves it out. *)
Definition optField (k : string) (v : option Json) : list (string * Json) :=
  match v with
  | Some j => [(k, j)]
  | None => []
  end.

(** [GET /auth-status] of the router: the object it sends, or the exception
    of reading [req.session.user] without a session. *)
Definition authStatus (session : option Session) : Exn + Json :=
  match session with
  | None => inl (TypeError "Cannot read properties of undefined (reading 'user')")
  | Some s =>
      inr (JObject
             [ ("isAuthenticated", JBool (bool_decide (is_Some (user s))));
               ("user",
                match user s with
                | Some u =>
                    JObject (optField "name" (JString <$> name (u_account u))
                             ++ [("username", JString (username (u_account u)))])
                | None => JNull
                end) ])
  end.

(** [GET /debug-session] of the router; every read is guarded by [?.]. *)
Definition debugSession (session : option Session) : Json :=
  JObject
    [ ("hasSession", JBool (bool_decide (is_Some session)));
      ("hasUser", JBool (bool_decide (is_Some (session ≫= user))));
      ("sessionContent",
       JObject
         [ ("user",
            match session ≫= user with
            | Some u =>
                JObject
                  [ ("hasAccount", JBool true);
                    ("hasToken", JBool (truthy (Some (u_accessToken u))));
                    ("accountUsername", JString (username (u_account u))) ]
            | None => JNull
            end) ]) ].

(** The session with another access token in [user], resp. with other
    values in the fields [user] does not hold. *)
Definition withToken (t : string) (s : Session) : Session :=
  set_user ((λ u, {| u_account := u_account u; u_accessToken := t |}) <$> user s) s.

Definition withSecrets (p : option PkceCodes) (v t : option string) (s : Session) : Session :=
  {| pkceCodes := p; user := user s; codeVerifier := v; accessToken := t |}.

(** ** The page routes, [routes/pages.mjs] *)

Module Pages.

(** The middleware in front of the pages: [res.locals.user] and
    [res.locals.isAuthenticated]. *)
Definition locals (session : option Session) : option User * bool :=
  (session ≫= user, bool_decide (is_Some (Router.sessionAccount session))).

(** [String.prototype.split('-')[0]]: what comes before the first dash. *)
Fixpoint beforeDash (s : string) : string :=
  match s with
  | EmptyString => EmptyString
  | String a rest =>
      if Ascii.eqb a "-"%char then EmptyString else String a (beforeDash rest)
  end.

(** The [env] entry of the info page. *)
Definition infoEnv (env : Env) : string :=
  if truthy (env !! "WEBSITE_SITE_NAME")
  then beforeDash (default "" (env !! "WEBSITE_SITE_NAME"))
  else "Local".

(** The numbers [convertSeconds] works on are doubles. Up to 2^52 every
    step below is exact on them: [%] and [Math.round] are exact on any
    double, and [Math.floor] of the rounded quotient by 86400, 3600 or 60
    is the floor of the exact one. The numbers are therefore rationals
    here, with [Math.floor], [Math.round] (to the nearest whole number,
    halves upwards) and [%] (the rest of the division truncated towards
    zero) as they are on them. *)
Definition floor (x : Q) : Z := Qfloor x.
Definition round (x : Q) : Z := Qfloor (x + (1 # 2))%Q.
Definition trunc (x : Q) : Z := Z.quot (Qnum x) (Zpos (Qden x)).
Definition rem (x d : Q) : Q := (x - inject_Z (trunc (x / d)) * d)%Q.

(** [convertSeconds(n)]: the four numbers it computes, and the text it
    returns. *)
Definition convertParts (n : Q) : Z * Z * Z * Z :=
  let days := floor (n / (24 * 3600))%Q in
  let n := rem n (24 * 3600)%Q in
  let hours := floor (n / 3600)%Q in
  let n := rem n 3600%Q in
  let mins := floor (n / 60)%Q in
  let n := rem n 60%Q in
  let secs := round n in
  (days, hours, mins, secs).

Definition convertSeconds (n : Q) : string :=
  let '(days, hours, mins, secs) := convertParts n in
  pretty days ++ " days, " ++ pretty hours ++ " hours, "
  ++ pretty mins ++ " mins, " ++ pretty secs ++ " seconds".

(** The error [GET /tools/error] hands to [next]. *)
Definition toolsErrorMessage : string := "This is a demo error from /tools/error".

End Pages.

(** ** Unmatched requests and the error page *)

(** An [Error] object with the [status] the handlers put on it. *)
Record ErrorObject := {
  err_message : string;
  err_status : option nat
}.

(** A rendered page with the status set before it. *)
Record StatusResponse := {
  sr_status : nat;
  sr_view : string;
  sr_locals : Locals
}.

(** The catch-all middleware both entry points end with. *)
Definition catchAll (method : string) : ErrorObject :=
  let err := {| err_message := "Not Found"; err_status := Some 404 |} in
  if negb (String.eqb method "GET") then
    {| err_message := "Method " ++ method ++ " not allowed"; err_status := Some 500 |}
  else err.

(** [err.status || 500] *)
Definition statusOr500 (err : ErrorObject) : nat :=
  match err_status err with
  | Some (S n) => S n
  | _ => 500
  end.

(** The error handler of the router-only entry point, and the one of the
    entry point with the inline flow. *)
Definition serverErrorHandler (session : option Session) (err : ErrorObject)
  : StatusResponse :=
  {| sr_status := statusOr500 err;
     sr_view := "error";
     sr_locals :=
       {| title := "Error";
          message := Some (err_message err);
          isAuthenticated := Some (bool_decide (is_Some (Router.sessionAccount session)));
          l_user := VAccount <$> Router.sessionAccount session;
          details := None; photo := None |} |}.

Definition serverInlineErrorHandler (err : ErrorObject) : StatusResponse :=
  {| sr_status := statusOr500 err;
     sr_view := "error";
     sr_locals :=
       {| title := "Error";
          message := Some (err_message err);
          isAuthenticated := None;
          l_user := None;
          details := None; photo := None |} |}.

(** The home page handler the router-only entry point registers itself. *)
Definition serverRoot (session : option Session) : Response :=
  Render "index"
    {| title := "Home";
       message := None;
       isAuthenticated := Some (bool_decide (is_Some (Router.sessionAccount session)));
       l_user := VAccount <$> Router.sessionAccount session;
       details := None; photo := None |}.

(** ** The order of registration *)

(** What the entry points register on the application, as far as sessions
    and routes go: the session middleware and the GET routes. *)
Inductive Layer :=
| SessionLayer
| RouteLayer (r : Route).

Definition routesOf (stack : list Layer) : list Route :=
  omap (λ l, match l with RouteLayer r => Some r | SessionLayer => None end) stack.

(** The first route registered for the path, and whether the session
    middleware is registered before it. *)
Fixpoint resolve (hasSession : bool) (stack : list Layer) (path : string)
  : option (bool * Endpoint) :=
  match stack with
  | [] => None
  | SessionLayer :: rest => resolve true rest path
  | RouteLayer r :: rest =>
      if String.eqb (fst r) path then Some (hasSession, snd r)
      else resolve hasSession rest path
  end.

Section Stacks.
Variables apiPaths todoPaths metricsPaths : list string.
Variable env : Env.

Definition serverStack : list Layer :=
  [ RouteLayer ("/", Other "server" "/");
    RouteLayer ("/health", Other "server" "/health");
    SessionLayer ]
  ++ (RouteLayer <$> commonRoutes apiPaths todoPaths metricsPaths env).

Definition serverInlineStack : list Layer :=
  [ SessionLayer;
    RouteLayer ("/login", InlineLogin);
    RouteLayer ("/signin", InlineSignin);
    RouteLayer ("/", InlineRoot);
    RouteLayer ("/protected", InlineProtected);
    RouteLayer ("/logout", InlineLogout);
    RouteLayer ("/health", Other "server" "/health");
    SessionLayer ]
  ++ (RouteLayer <$> commonRoutes apiPaths todoPaths metricsPaths env).

(** A GET request on the router-only entry point that is not for the login
    flow: the home page of the entry point, the error page when no route is
    registered for the path, nothing said about the other pages. *)
Definition serverGet (w : World) (cookie : option string) (path : string)
  : option (Response + StatusResponse) :=
  match resolve false serverStack path with
  | Some (hasSession, Other "server" "/") =>
      Some (inl (serverRoot (if hasSession then Some (default emptySession (cookie ≫= (sessions w !!.)))
                             else None)))
  | Some _ => None
  | None =>
      Some (inr (serverErrorHandler (Some (default emptySession (cookie ≫= (sessions w !!.))))
                   (catchAll "GET")))
  end.
End Stacks.

(** ** Request logging *)

(** [String.prototype.indexOf] *)
Definition indexOf (s needle : string) : Z :=
  match String.index 0 needle s with
  | Some n => Z.of_nat n
  | None => (-1)%Z
  end.

(** The [skip] function given to the logger. *)
Definition loggerSkip (path : string) : bool :=
  bool_decide (indexOf path "/signin" = 0%Z).

(** ** Notions for the properties beyond the login flow proper *)

(** The two callbacks. *)
Definition isSignin (e : Endpoint) : bool :=
  match e with
  | RouterSignin | InlineSignin => true
  | _ => false
  end.

(** The routes of the router module that the inline flow has under the same
    paths. *)
Definition isRouterFlowStep (e : Endpoint) : bool :=
  match e with
  | RouterLogin | RouterSignin | RouterLogout => true
  | _ => false
  end.

(** A session on which the router module has written nothing. *)
Definition noRouterFields (s : Session) : Prop :=
  pkceCodes s = None ∧ user s = None.

(** More of the scenario: a second browser, and a hash with 32 bytes of
    output. *)
Module Samples.

Definition afterOtherLogin : World * option Response :=
  default (Scenario.wLoggedIn, None)
    (Scenario.serveApp Scenario.app Scenario.env Scenario.wLoggedIn Scenario.otherLogin).

Definition afterCallback : World * option Response :=
  default (Scenario.wPending, None)
    (Scenario.serveApp Scenario.app Scenario.env Scenario.wPending
       Scenario.callbackRequest).

Definition strangerCallback : Request :=
  Scenario.request "/signin" (Scenario.callback "S9") None.

Definition inlineEnv : Env := {[ "ENTRA_APP_ID" := "app-1" ]}.
Definition inlineApp : list Route := serverInlineRoutes [] [] [] inlineEnv.

(** The inline application after a login and a redeemed callback. *)
Definition wInline : World :=
  default initialWorld
    (Scenario.serveAllApp inlineApp inlineEnv initialWorld
       [Scenario.loginRequest; Scenario.callbackRequest]).

Definition afterAccount : World * option Response :=
  default (Scenario.wLoggedIn, None)
    (Scenario.serveApp Scenario.app Scenario.env Scenario.wLoggedIn
       Scenario.accountRequest).

(** A provider that redeems the code "ABC" whether or not a verifier comes
    with it (the code was issued without a challenge). *)
Definition laxProvider (cfg : MsalConfig) : MsalApp :=
  {| getAuthCodeUrl := λ p, inr "https://login.microsoftonline.com/authorize";
     acquireTokenByCode := λ history tr,
       if bool_decide (tr_code tr = Some "ABC") then inr Scenario.aliceResult
       else inl (AuthError InvalidGrant "invalid_grant") |}.

Definition siteEnv : Env := {[ "WEBSITE_SITE_NAME" := "demoapp" ]}.

Definition hash32 (s : string) : string := "0123456789abcdef0123456789abcdef".
Definition random32 : string := "ABCDEFGHIJKLMNOPQRSTUVWXYZ012345".

End Samples.

(** * Properties *)

Open Scope list_scope.

(** Unfolding a handler down to the state transformer it denotes. *)
Ltac unfold_handlers :=
  unfold signinOf, ensureAuthenticatedOf, accepts, exec, crashed,
    Router.account, Router.accountBody, Router.login, Router.signin,
    Router.logout, Router.ensureAuthenticated, Router.theMsalApp,
    Router.sessionAccount,
    Inline.login, Inline.signin, Inline.logout, Inline.root,
    Inline.protected, Inline.ensureAuthenticated,
    Graph.getUserDetails, Graph.getUserPhoto,
    sessionDestroy, awaitToken, redirect, render, send, respond, responded,
    getSession, peekSession, setSession, lift, try_catch, throw, bind, ret,
    entry in *.

Ltac run_handler := unfold_handlers; simpl in *.

Example base64_Man :
  base64 "Man" = "TWFu" ∧ base64 "Ma" = "TWE=" ∧ base64url "M" = "TQ".
Proof. repeat split; reflexivity. Qed.

(** The helpers of the Graph module never throw. *)
Lemma getUserDetails_total {S} axios token (st : S) :
  ∃ v, Graph.getUserDetails axios token st = (Normal v, st).
Proof.
  unfold Graph.getUserDetails.
  destruct (truthy token); simpl; [|by eexists].
  unfold try_catch, bind, lift; simpl.
  destruct (axios _); simpl; by eexists.
Qed.

Lemma getUserPhoto_total {S} axios token (st : S) :
  ∃ v, Graph.getUserPhoto axios token st = (Normal v, st).
Proof.
  unfold Graph.getUserPhoto.
  destruct (truthy token); simpl; [|by eexists].
  unfold try_catch, bind, lift; simpl.
  destruct (axios _); simpl; by eexists.
Qed.


(** ** The handlers, case by case *)

Section HandlerFacts.
Variable PublicClientApplication : MsalConfig → MsalApp.
Variable env : Env.

(** The router callback: it throws out of the handler on a session
    without [pkceCodes]; otherwise it sends one token request and either
    stores the user and redirects, or renders the error page and leaves
    the session alone. *)
Lemma router_signin_cases q sid (sessions : gmap string Session) s calls :
  let h := Router.signin PublicClientApplication env q in
  let st := entry sid sessions s calls in
  match pkceCodes s with
  | None => exec h st = st ∧ crashed h st = true
  | Some p =>
      crashed h st = false ∧
      match Router.msalApp PublicClientApplication env with
      | None => ∃ l, exec h st = responded (Render "error" l) st
      | Some app =>
          let tr := routerTokenRequest env q p in
          match acquireTokenByCode app calls tr with
          | inr r =>
              match ar_account r with
              | Some a =>
                  exec h st
                  = {| sessionID := sid; store := sessions;
                       req_session := Some (set_user (Some (userOf r a)) s);
                       tokenCalls := calls ++ [tr];
                       res := Some (Redirect "/account") |}
              | None =>
                  ∃ l, exec h st
                       = {| sessionID := sid; store := sessions;
                            req_session := Some s;
                            tokenCalls := calls ++ [tr];
                            res := Some (Render "error" l) |}
              end
          | inl e =>
              ∃ l, exec h st
                   = {| sessionID := sid; store := sessions;
                        req_session := Some s;
                        tokenCalls := calls ++ [tr];
                        res := Some (Render "error" l) |}
          end
      end
  end.
Proof.
  run_handler. unfold routerTokenRequest, userOf.
  destruct (pkceCodes s) as [p|]; simpl; [|done].
  destruct (Router.msalApp PublicClientApplication env) as [app|]; simpl; [|eauto].
  destruct (acquireTokenByCode app calls _) as [e|r]; simpl; [eauto|].
  destruct (ar_account r) as [a|]; simpl; [|eauto].
  by destruct a.
Qed.

(** The inline callback: one token request whatever the session holds,
    then the token is stored, or the browser is sent back to [/login]. *)
Lemma inline_signin_cases q sid (sessions : gmap string Session) s calls :
  let h := Inline.signin PublicClientApplication q in
  let st := entry sid sessions s calls in
  let tr := inlineTokenRequest q s in
  crashed h st = false ∧
  exec h st =
  match acquireTokenByCode (Inline.msalClient PublicClientApplication) calls tr with
  | inr r => {| sessionID := sid; store := sessions;
                req_session := Some (set_accessToken (Some (ar_accessToken r)) s);
                tokenCalls := calls ++ [tr];
                res := Some (Redirect "/") |}
  | inl e => {| sessionID := sid; store := sessions;
                req_session := Some s;
                tokenCalls := calls ++ [tr];
                res := Some (Redirect "/login") |}
  end.
Proof.
  run_handler. unfold inlineTokenRequest.
  by destruct (acquireTokenByCode _ calls _) as [e|r].
Qed.

(** [GET /login] of the router: with codes from the generator, the pair is
    on the session afterwards and a response is sent, whatever becomes of
    the redirect; nothing else changes. *)
Lemma router_login_exec v c sid (ss : gmap string Session) s calls :
  ∃ resp,
    exec (Router.login PublicClientApplication env (inr (v, c))) (entry sid ss s calls)
    = {| sessionID := sid; store := ss;
         req_session :=
           Some (set_pkceCodes
                   (Some {| challengeMethod :=
                              from_option challengeMethod (Some "S256") (pkceCodes s);
                            verifier := Some v; challenge := Some c |}) s);
         tokenCalls := calls; res := Some resp |}.
Proof.
  run_handler.
  destruct (pkceCodes s) as [p|] eqn:E; simpl; rewrite ?E; simpl;
    (destruct (Router.msalApp PublicClientApplication env) as [app|]; simpl;
     [|by eauto]);
    (match goal with |- context [getAuthCodeUrl app ?x] =>
       destruct (getAuthCodeUrl app x) as [e|u] end; simpl; [by eauto|]);
    destruct (negb (negb (u =? ""))); simpl; eauto.
Qed.

(** The callback on a session that has what the flow needs: one token
    request goes out and a response is sent; the session keeps what the
    token request was built from, and is unchanged altogether when the
    provider rejects the request. *)
Lemma callback_exec f q sid (ss : gmap string Session) s calls tr app :
  tokenRequestOf env f q s = Some tr →
  msalOf PublicClientApplication env f = Some app →
  ∃ s1 resp,
    exec (signinOf PublicClientApplication env f q) (entry sid ss s calls)
    = {| sessionID := sid; store := ss; req_session := Some s1;
         tokenCalls := calls ++ [tr]; res := Some resp |}
    ∧ crashed (signinOf PublicClientApplication env f q) (entry sid ss s calls) = false
    ∧ tokenRequestOf env f q s1 = Some tr
    ∧ match acquireTokenByCode app calls tr with
      | inl _ => s1 = s
      | inr _ => True
      end.
Proof.
  intros Htr Happ. destruct f; simpl in *.
  - pose proof (router_signin_cases q sid ss s calls) as H.
    simpl in H. destruct (pkceCodes s) as [p|] eqn:Hp; [|done]. simpl in Htr.
    destruct H as [Hc H]. rewrite Happ in H. simplify_eq.
    destruct (acquireTokenByCode app calls _) as [e|a] eqn:Ha.
    + destruct H as [l H]. exists s. eexists. rewrite H, Hp.
      split_and!; try (reflexivity || done).
    + destruct (ar_account a) as [acc|].
      * exists (set_user (Some (userOf a acc)) s). eexists. rewrite H. simpl.
        rewrite Hp. split_and!; try (reflexivity || done).
      * destruct H as [l H]. exists s. eexists. rewrite H, Hp.
        split_and!; try (reflexivity || done).
  - simplify_eq.
    pose proof (inline_signin_cases q sid ss s calls) as [Hc H].
    simpl in H. rewrite H.
    destruct (acquireTokenByCode _ calls _) as [e|a] eqn:Ha;
      [exists s|exists (set_accessToken (Some (ar_accessToken a)) s)];
      eexists; split_and!; try (reflexivity || done).
Qed.

(** ** The access-control middleware *)

(** C9. On a request to a protected route the middleware of either flow
    changes nothing of the session state: when the session is not
    authenticated the only effect is the redirect to [/login] (session,
    store and provider calls are as before); when it is, the request is
    handed to the next handler in the very state it arrived in. *)
Theorem middleware_only_reads (f : Flow) sid (sessions : gmap string Session)
    s calls (next : Handler unit) :
  let st := entry sid sessions s calls in
  ensureAuthenticatedOf f next st
  = match flowStateOf f s with
    | Authenticated => next st
    | _ => (Normal (), responded (Redirect "/login") st)
    end.
Proof.
  destruct f; run_handler.
  - unfold stateOf, identityPresent. destruct (user s); simpl.
    + done.
    + by case_bool_decide.
  - unfold inlineStateOf. destruct (truthy (accessToken s)); [done|].
    by case_bool_decide.
Qed.

(** ** The callback *)

(** C4, as the code has it. Whenever the callback of either flow answers
    the request with anything but the redirect to the landing page (the
    error page of the router's [catch] block, the redirect to [/login] of
    the inline flow), the session is left exactly as it was, and the store
    too: the verifier is not erased. *)
Theorem signin_error_keeps_session f q sid (sessions : gmap string Session) s calls
    resp :
  let st' := exec (signinOf PublicClientApplication env f q)
                  (entry sid sessions s calls) in
  res st' = Some resp →
  resp ≠ Redirect (landingOf f) →
  req_session st' = Some s ∧ store st' = sessions.
Proof.
  destruct f; simpl.
  - pose proof (router_signin_cases q sid sessions s calls) as H. simpl in H.
    destruct (pkceCodes s) as [p|]; [|by destruct H as [-> _]].
    destruct H as [_ H].
    destruct (Router.msalApp PublicClientApplication env) as [app|];
      [|by destruct H as [l ->]].
    destruct (acquireTokenByCode app calls _) as [e|r]; [by destruct H as [l ->]|].
    destruct (ar_account r) as [a|]; [|by destruct H as [l ->]].
    rewrite H. simpl. by intros [= <-].
  - pose proof (inline_signin_cases q sid sessions s calls) as [_ H]. simpl in H.
    rewrite H. destruct (acquireTokenByCode _ calls _); simpl; [done|].
    by intros [= <-].
Qed.

(** C1, as the code has it. The callback of either flow never reads the
    [state] parameter: as a handler it is the same for every value the
    request carries there, matching or not. *)
Theorem callback_ignores_state f q x :
  signinOf PublicClientApplication env f (withState x q)
  = signinOf PublicClientApplication env f q.
Proof. by destruct f. Qed.

End HandlerFacts.

(** C1, as stated, fails: the session "S1" has started a login, the callback
    comes back with [state=S2], and the code is good. The session ends up
    authenticated. *)
Lemma forged_state_authenticates :
  stateMatches "S1" (query Scenario.forgedCallback) = false
  ∧ (w ← Scenario.serveAllApp Scenario.app Scenario.env initialWorld
           [Scenario.loginRequest; Scenario.forgedCallback];
     stateOf <$> sessions w !! "S1") = Some Authenticated.
Proof. split; vm_compute; reflexivity. Qed.

(** C4, as stated, fails: the provider rejects the code "XYZ", the error
    page is rendered, and the session is still pending with its verifier. *)
Lemma failed_callback_keeps_verifier :
  let st' := exec (Router.signin Scenario.provider Scenario.env Scenario.badCallback)
                  (entry "S1" {[ "S1" := Scenario.pending ]} Scenario.pending []) in
  (∃ l, res st' = Some (Render "error" l))
  ∧ (s ← req_session st'; p ← pkceCodes s; verifier p) = Some "verifier-1"
  ∧ stateOf <$> req_session st' = Some PendingAuthorization.
Proof. split_and!; [eexists|..]; vm_compute; reflexivity. Qed.

Lemma signin_error_keeps_session_witness :
  req_session (exec (Router.signin Scenario.provider Scenario.env Scenario.badCallback)
                    (entry "S1" ∅ Scenario.pending []))
  = Some Scenario.pending.
Proof.
  apply (signin_error_keeps_session Scenario.provider Scenario.env RouterFlow
           Scenario.badCallback "S1" ∅ Scenario.pending []
           (default (Redirect "/account")
              (res (exec (Router.signin Scenario.provider Scenario.env
                            Scenario.badCallback)
                         (entry "S1" ∅ Scenario.pending []))))).
  - vm_compute. reflexivity.
  - vm_compute. discriminate.
Defined.


(** ** The Graph lookups *)



(** ** Requests against the store *)

(** The session a request gets: the stored one its cookie names, or a new
    empty one under a new identifier. *)
Lemma loadSession_cases (w : World) r :
  (∃ sid s, cookie r = Some sid ∧ sessions w !! sid = Some s
            ∧ loadSession w r = (sid, s))
  ∨ ((∀ sid, cookie r = Some sid → sessions w !! sid = None)
     ∧ loadSession w r = (freshID r, emptySession)).
Proof.
  unfold loadSession. destruct (cookie r) as [sid|]; [|right; naive_solver].
  destruct (sessions w !! sid) as [s|] eqn:E; [left; eauto|right].
  split; [|done]. by intros ? [= <-].
Qed.

Lemma loadSession_absent (w : World) r sid :
  sessions w !! sid = None → freshID r ≠ sid → fst (loadSession w r) ≠ sid.
Proof.
  intros Hn Hf.
  destruct (loadSession_cases w r) as [(sid' & s & _ & Hs & ->)|[_ ->]]; simpl.
  - intros ->. congruence.
  - done.
Qed.

Lemma sessionInv_loaded (w : World) r :
  (∀ sid s, sessions w !! sid = Some s → sessionInv s) →
  sessionInv (snd (loadSession w r)).
Proof.
  intros Hall.
  destruct (loadSession_cases w r) as [(sid & s & _ & Hs & ->)|[_ ->]]; simpl.
  - eauto.
  - done.
Qed.

(** Sessions other than the one of the request are out of a handler's
    reach. *)
Lemma withSession_other h (w : World) r sid :
  wellBehaved h → sid ≠ fst (loadSession w r) →
  sessions (fst (withSession h w r)) !! sid = sessions w !! sid.
Proof.
  intros Hh Hne. unfold withSession. simpl.
  destruct (Hh (fst (loadSession w r)) (sessions w) (snd (loadSession w r)) (idpCalls w))
    as [_ Hst].
  unfold entry in Hst. simpl in Hst.
  destruct (req_session (exec h _)) as [s'|].
  - destruct Hst as [-> _]. destruct (res (exec h _)); [|done].
    case_decide; [done|]. by rewrite lookup_insert_ne.
  - rewrite Hst. destruct (res (exec h _)); by rewrite lookup_delete_ne.
Qed.

Lemma withSession_inv h (w : World) r :
  wellBehaved h →
  (∀ sid s, sessions w !! sid = Some s → sessionInv s) →
  ∀ sid s, sessions (fst (withSession h w r)) !! sid = Some s → sessionInv s.
Proof.
  intros Hh Hall sid s.
  destruct (decide (sid = fst (loadSession w r))) as [->|Hne];
    [|rewrite withSession_other by done; apply Hall].
  unfold withSession. simpl.
  destruct (Hh (fst (loadSession w r)) (sessions w) (snd (loadSession w r)) (idpCalls w))
    as [_ Hst].
  unfold entry in Hst. simpl in Hst.
  pose proof (sessionInv_loaded w r Hall) as Hl.
  destruct (req_session (exec h _)) as [s'|].
  - destruct Hst as [-> Hinv]. destruct (res (exec h _)); [|apply Hall].
    case_decide; [apply Hall|]. rewrite lookup_insert_eq. intros [= <-]. auto.
  - rewrite Hst. destruct (res (exec h _)); by rewrite lookup_delete_eq.
Qed.

(** A handler that answers and keeps the session leaves the store with the
    session as it made it, provided the session was stored before or the
    handler changed it. *)
Lemma withSession_saved h (w : World) r s1 calls' resp :
  let ls := loadSession w r in
  exec h (entry (fst ls) (sessions w) (snd ls) (idpCalls w))
  = {| sessionID := fst ls; store := sessions w; req_session := Some s1;
       tokenCalls := calls'; res := Some resp |} →
  sessions w !! fst ls = Some (snd ls) ∨ s1 ≠ snd ls →
  withSession h w r
  = ({| sessions := <[fst ls := s1]> (sessions w); idpCalls := calls' |}, Some resp).
Proof.
  intros ls He Hor. unfold withSession. fold ls.
  unfold entry in He. rewrite He. simpl.
  case_decide as Heq; [|done]. subst s1.
  destruct Hor as [Hs|]; [|done]. by rewrite insert_id.
Qed.

Lemma withSession_answered h (w : World) r sid s s1 calls' resp :
  cookie r = Some sid → sessions w !! sid = Some s →
  exec h (entry sid (sessions w) s (idpCalls w))
  = {| sessionID := sid; store := sessions w; req_session := Some s1;
       tokenCalls := calls'; res := Some resp |} →
  withSession h w r
  = ({| sessions := <[sid := s1]> (sessions w); idpCalls := calls' |}, Some resp).
Proof.
  intros Hc Hs He.
  assert (Hl : loadSession w r = (sid, s)).
  { unfold loadSession. by rewrite Hc, Hs. }
  pose proof (withSession_saved h w r s1 calls' resp) as H.
  rewrite Hl in H. simpl in H. apply H; auto.
Qed.

Lemma withSession_pkce h (w : World) r :
  wellBehaved h → keepsPkce h →
  (∀ sid s, sessions w !! sid = Some s → pkcePresent s = true) →
  ∀ sid s, sessions (fst (withSession h w r)) !! sid = Some s → pkcePresent s = true.
Proof.
  intros Hh Hk Hall sid s.
  destruct (decide (sid = fst (loadSession w r))) as [->|Hne];
    [|rewrite withSession_other by done; apply Hall].
  unfold withSession. simpl.
  destruct (Hh (fst (loadSession w r)) (sessions w) (snd (loadSession w r)) (idpCalls w))
    as [_ Hst].
  assert (Hl : snd (loadSession w r) = emptySession
               ∨ pkcePresent (snd (loadSession w r)) = true).
  { destruct (loadSession_cases w r) as [(sid' & s0 & _ & Hs & ->)|[_ ->]];
      simpl; eauto. }
  specialize (Hk (fst (loadSession w r)) (sessions w) (snd (loadSession w r))
                 (idpCalls w) Hl).
  unfold entry in Hst, Hk. simpl in Hst.
  destruct (req_session (exec h _)) as [s'|].
  - destruct Hst as [-> _]. destruct (res (exec h _)); [|apply Hall].
    case_decide as Hd; [apply Hall|]. rewrite lookup_insert_eq. intros [= <-].
    by destruct Hk.
  - rewrite Hst. destruct (res (exec h _)); by rewrite lookup_delete_eq.
Qed.

Lemma dispatch_elem table path e :
  dispatch table path = Some e → ∃ r, r ∈ table ∧ snd r = e.
Proof.
  unfold dispatch. intros H.
  destruct (find _ table) as [r|] eqn:E; simplify_eq/=.
  apply find_some in E as [Hin _]. exists r. split; [|done].
  by apply list_elem_of_In.
Qed.

Section WorldFacts.
Variable PublicClientApplication : MsalConfig → MsalApp.
Variable env : Env.
Variable axios : Graph.GraphReq → Exn + string.
Variable sha256 : string → string.
Variable encodeURIComponent : string → string.

#[local] Abbreviation serve' := (serve PublicClientApplication env axios sha256 encodeURIComponent).
#[local] Abbreviation serveAll' := (serveAll PublicClientApplication env axios sha256 encodeURIComponent).
#[local] Abbreviation handlerOf' := (handlerOf PublicClientApplication env axios sha256 encodeURIComponent).
#[local] Abbreviation Reachable' := (Reachable PublicClientApplication env axios sha256 encodeURIComponent).

#[local] Set Warnings "-clear-no-such-hyp".
Lemma handlers_wellBehaved e r h : handlerOf' e r = Some h → wellBehaved h.
Proof.
  intros He sid sessions s calls.
  destruct e; simplify_eq/=; run_handler; unfold sessionInv;
    repeat (case_match; simplify_eq/=); try naive_solver.
Qed.
#[local] Set Warnings "+clear-no-such-hyp".

Lemma serve_inv table (w : World) r w' resp :
  serve' table w r = Some (w', resp) →
  ∃ e h, dispatch table (path r) = Some e
         ∧ handlerOf' e r = Some h
         ∧ withSession h w r = (w', resp).
Proof.
  unfold serve. intros Hs.
  destruct (dispatch table (path r)) as [e|]; [|done]. simpl in Hs.
  destruct (handlerOf' e r) as [h|] eqn:Hh; [|done].
  simplify_eq/=. eauto.
Qed.

Lemma reachable_sessionInv table (w : World) :
  Reachable' table w → ∀ sid s, sessions w !! sid = Some s → sessionInv s.
Proof.
  induction 1 as [|w r w' resp _ IH Hs].
  - intros sid s. simpl. by rewrite lookup_empty.
  - apply serve_inv in Hs as (e & h & _ & Hh & Hw). intros sid s.
    replace w' with (fst (withSession h w r)) by (by rewrite Hw).
    apply (withSession_inv h w r); [by eapply handlers_wellBehaved|done].
Qed.

#[local] Set Warnings "-clear-no-such-hyp".
Lemma router_handlers_keepPkce e r h :
  isInlineEndpoint e = false → handlerOf' e r = Some h → keepsPkce h.
Proof.
  intros Hi He sid ss s calls Hs.
  destruct e; simplify_eq/=.
  - destruct (pkce r) as [err|[v c]].
    + run_handler. auto.
    + destruct (router_login_exec PublicClientApplication env v c sid ss s calls)
        as [resp ->].
      simpl. auto.
  - pose proof (router_signin_cases PublicClientApplication env (query r)
                  sid ss s calls) as H.
    simpl in H. destruct Hs as [->|Hs].
    + simpl in H. destruct H as [-> _]. simpl. auto.
    + unfold pkcePresent in Hs.
      destruct (pkceCodes s) as [p|] eqn:Hp; [|done]. destruct H as [_ H].
      destruct (Router.msalApp PublicClientApplication env) as [app|];
        [|destruct H as [l ->]; simpl; auto].
      destruct (acquireTokenByCode app calls _) as [err|a];
        [destruct H as [l ->]; simpl; auto|].
      destruct (ar_account a) as [acc|]; [|destruct H as [l ->]; simpl; auto].
      rewrite H. simpl. right. unfold pkcePresent. simpl. by rewrite Hp.
  - run_handler. done.
  - run_handler. repeat (case_match; simplify_eq/=); auto.
Qed.
#[local] Set Warnings "+clear-no-such-hyp".

Lemma reachable_pkce table (w : World) :
  routerOnly table → Reachable' table w →
  ∀ sid s, sessions w !! sid = Some s → pkcePresent s = true.
Proof.
  intros Hro. induction 1 as [|w r w' resp _ IH Hs].
  - intros sid s. simpl. by rewrite lookup_empty.
  - apply serve_inv in Hs as (e & h & Hd & Hh & Hw). intros sid s.
    replace w' with (fst (withSession h w r)) by (by rewrite Hw).
    apply (withSession_pkce h w r); [by eapply handlers_wellBehaved| |done].
    eapply router_handlers_keepPkce; [|done].
    apply dispatch_elem in Hd as (rt & Hin & <-).
    unfold routerOnly in Hro. rewrite Forall_forall in Hro. by apply Hro.
Qed.

(** C5, as the code has it. In every world an application can reach by
    requests to [/login], the callback, [/logout] and the protected routes,
    a stored session that carries identity and access token also carries
    the pkce pair (the pair comes first and is never taken off, so both are
    there at once after a successful callback); and where the login flow is
    the router module alone, every stored session carries the pkce pair,
    so that never neither is there. *)
Theorem identity_only_with_pkce table (w : World) :
  Reachable' table w →
  ∀ sid s, sessions w !! sid = Some s →
           (identityPresent s = true → pkcePresent s = true)
           ∧ (routerOnly table → pkcePresent s = true).
Proof.
  intros Hr sid s Hs. split.
  - pose proof (reachable_sessionInv table w Hr sid s Hs) as Hinv.
    unfold sessionInv, identityPresent, pkcePresent in *.
    destruct (pkceCodes s) as [p|].
    + by destruct Hinv as (_ & [? ->] & [? ->]).
    + by rewrite Hinv.
  - intros Hro. by eapply reachable_pkce.
Qed.

(** ** Logout *)

Lemma serve_keeps_absent table (w : World) r w' resp sid :
  sessions w !! sid = None → freshID r ≠ sid →
  serve' table w r = Some (w', resp) →
  sessions w' !! sid = None.
Proof.
  intros Hn Hf (e & h & _ & Hh & Hw)%serve_inv.
  replace w' with (fst (withSession h w r)) by (by rewrite Hw).
  rewrite withSession_other; [done|by eapply handlers_wellBehaved|].
  intros ->. by eapply loadSession_absent.
Qed.

Lemma serveAll_keeps_absent table rs : ∀ (w w' : World) sid,
  sessions w !! sid = None → Forall (λ r, freshID r ≠ sid) rs →
  serveAll' table w rs = Some w' →
  sessions w' !! sid = None.
Proof.
  induction rs as [|r rs IH]; intros w w' sid Hn Hf Hs; simpl in Hs.
  - by simplify_eq.
  - inversion Hf as [|? ? Hr Hrs]; subst.
    destruct (serve' table w r) as [[w1 resp]|] eqn:E; [|done].
    eapply IH; [|done|done]. by eapply serve_keeps_absent.
Qed.

Lemma logout_destroys table (w : World) r w' resp e sid :
  dispatch table (path r) = Some e → isLogout e = true →
  cookie r = Some sid →
  serve' table w r = Some (w', resp) →
  sessions w' !! sid = None ∧ is_Some resp.
Proof.
  intros Hd He Hc (e' & h & Hd' & Hh & Hw)%serve_inv.
  rewrite Hd in Hd'. simplify_eq.
  assert (Hx : ∃ url, ∀ st,
    exec h st = {| sessionID := sessionID st;
                   store := delete (sessionID st) (store st);
                   req_session := None; tokenCalls := tokenCalls st;
                   res := Some (Redirect url) |}).
  { destruct e'; simplify_eq/=; eexists; intros st; run_handler; done. }
  destruct Hx as [url Hx].
  unfold withSession in Hw. rewrite Hx in Hw. simpl in Hw. simplify_eq/=.
  split; [|eauto].
  destruct (loadSession_cases w r) as [(sid' & s & Hc' & Hs & ->)|[Hn ->]]; simpl.
  - rewrite Hc in Hc'. simplify_eq. apply lookup_delete_eq.
  - apply lookup_delete_None. right. by apply Hn.
Qed.

Lemma protected_redirects table (w : World) r e sid :
  dispatch table (path r) = Some e → isProtected e = true →
  cookie r = Some sid → sessions w !! sid = None →
  serve' table w r = Some (w, Some (Redirect "/login")).
Proof.
  intros Hd He Hc Hn. unfold serve. rewrite Hd. simpl.
  assert (Hl : loadSession w r = (freshID r, emptySession)).
  { unfold loadSession. by rewrite Hc, Hn. }
  destruct w as [ss calls].
  destruct e; simplify_eq/=; unfold withSession; rewrite Hl; by vm_compute.
Qed.

(** C7. Whatever state the session of the cookie is in, [/logout] of
    either flow removes its record from the store; and after any further
    requests of the login flow (none of which is handed the old
    identifier as a new one), a request to a protected route that still
    presents the old cookie is answered with the redirect to [/login] and
    changes nothing. *)
Theorem logout_ends_session table (w : World) r e sid w1 resp rs w2 r' e' :
  cookie r = Some sid →
  dispatch table (path r) = Some e → isLogout e = true →
  serve' table w r = Some (w1, resp) →
  Forall (λ q, freshID q ≠ sid) rs →
  serveAll' table w1 rs = Some w2 →
  cookie r' = Some sid →
  dispatch table (path r') = Some e' → isProtected e' = true →
  sessions w1 !! sid = None
  ∧ serve' table w2 r' = Some (w2, Some (Redirect "/login")).
Proof.
  intros Hc Hd He Hs Hf Hrs Hc' Hd' He'.
  destruct (logout_destroys table w r w1 resp e sid Hd He Hc Hs) as [Hn _].
  split; [done|].
  eapply protected_redirects; eauto.
  eapply serveAll_keeps_absent; eauto.
Qed.
End WorldFacts.

(** ** Login, callback, and the callback again *)

Section LoginFlow.
Variable PublicClientApplication : MsalConfig → MsalApp.
Variable env : Env.

(** C2, as the code has it. When the callback of either flow is invoked a
    second time with the same query on a stored session (one that carries
    what the flow builds its token request from), the token endpoint is
    contacted again, with the very token request of the first invocation;
    the second invocation does not throw and sends a response; and when the
    provider rejects this second request, the store is left as the first
    invocation left it. *)
Theorem second_callback_asks_provider_again f (w : World) r sid s tr app :
  cookie r = Some sid → sessions w !! sid = Some s →
  tokenRequestOf env f (query r) s = Some tr →
  msalOf PublicClientApplication env f = Some app →
  let h := signinOf PublicClientApplication env f (query r) in
  let w1 := fst (withSession h w r) in
  let w2 := fst (withSession h w1 r) in
  idpCalls w1 = idpCalls w ++ [tr]
  ∧ idpCalls w2 = idpCalls w ++ [tr; tr]
  ∧ crashes h w1 r = false
  ∧ is_Some (snd (withSession h w1 r))
  ∧ match acquireTokenByCode app (idpCalls w ++ [tr]) tr with
    | inl _ => sessions w2 = sessions w1
    | inr _ => True
    end.
Proof.
  intros Hc Hs Htr Happ h w1 w2.
  destruct (callback_exec PublicClientApplication env f (query r) sid
              (sessions w) s (idpCalls w) tr app Htr Happ)
    as (s1 & resp1 & He1 & _ & Htr1 & _).
  pose proof (withSession_answered _ w r sid s s1 _ resp1 Hc Hs He1) as Hw1.
  fold h in Hw1. subst w2 w1. rewrite Hw1. cbn [fst snd sessions idpCalls].
  destruct (callback_exec PublicClientApplication env f (query r) sid
              (<[sid:=s1]> (sessions w)) s1 (idpCalls w ++ [tr]) tr app Htr1 Happ)
    as (s2 & resp2 & He2 & Hcr & _ & Herr).
  pose proof (withSession_answered h
                {| sessions := <[sid:=s1]> (sessions w);
                   idpCalls := idpCalls w ++ [tr] |}
                r sid s1 s2 _ resp2 Hc (lookup_insert_eq _ _ _) He2) as Hw2.
  rewrite Hw2. cbn [fst snd sessions idpCalls]. rewrite <- app_assoc. simpl.
  split_and!; try done.
  - unfold crashes, loadSession. simpl. by rewrite Hc, lookup_insert_eq.
  - destruct (acquireTokenByCode app _ tr); [|done]. subst.
    by rewrite insert_insert_eq.
Qed.

(** C3, as the code has it. A request to [/login] of the router for which
    the generator yields the pair (v, c), followed by the callback on the
    same session with a code that the provider redeems for this verifier,
    leaves the session authenticated: the callback redirects to [/account],
    identity and access token of the provider's answer are on the stored
    session, and so is the pkce pair (v, c), which the callback does not
    take off. *)
Theorem login_then_callback_authenticates (w : World) r1 r2 v c app result a :
  Router.msalApp PublicClientApplication env = Some app →
  pkce r1 = inr (v, c) →
  let sid := fst (loadSession w r1) in
  let w1 := fst (withSession (Router.login PublicClientApplication env (pkce r1)) w r1) in
  cookie r2 = Some sid →
  acquireTokenByCode app (idpCalls w)
    {| tr_code := q_code (query r2);
       tr_scopes := Router.AUTH_SCOPES;
       tr_redirectUri := env !! "AUTH_REDIRECT_URI";
       tr_codeVerifier := Some v;
       tr_clientInfo := q_client_info (query r2) |} = inr result →
  ar_account result = Some a →
  let cb := withSession (Router.signin PublicClientApplication env (query r2)) w1 r2 in
  snd cb = Some (Redirect "/account")
  ∧ ∃ s2 p, sessions (fst cb) !! sid = Some s2
            ∧ stateOf s2 = Authenticated
            ∧ user s2 = Some (userOf result a)
            ∧ pkceCodes s2 = Some p
            ∧ verifier p = Some v ∧ challenge p = Some c.
Proof.
  intros Happ Hp sid w1 Hc Hacq Hacc cb.
  set (s0 := snd (loadSession w r1)).
  set (p1 := {| challengeMethod :=
                  from_option challengeMethod (Some "S256") (pkceCodes s0);
                verifier := Some v; challenge := Some c |}).
  set (s1 := set_pkceCodes (Some p1) s0).
  destruct (router_login_exec PublicClientApplication env v c sid (sessions w) s0
              (idpCalls w)) as [resp1 He1].
  assert (Hw1 : w1 = {| sessions := <[sid := s1]> (sessions w);
                        idpCalls := idpCalls w |}).
  { subst w1. rewrite Hp.
    rewrite (withSession_saved _ w r1 s1 (idpCalls w) resp1 He1); [done|].
    destruct (loadSession_cases w r1) as [(sid' & s & _ & Hs & Hl)|[_ Hl]].
    - left. subst sid s0. by rewrite Hl.
    - right. subst s1 s0. rewrite Hl. simpl. discriminate. }
  clearbody w1. subst w1.
  set (w1 := {| sessions := <[sid := s1]> (sessions w); idpCalls := idpCalls w |}) in *.
  assert (Hl2 : loadSession w1 r2 = (sid, s1)).
  { unfold loadSession. rewrite Hc. simpl. by rewrite lookup_insert_eq. }
  pose proof (router_signin_cases PublicClientApplication env (query r2) sid
                (sessions w1) s1 (idpCalls w1)) as H.
  simpl in H. rewrite Happ in H. destruct H as [_ H].
  unfold routerTokenRequest in H. simpl in H.
  rewrite Hacq, Hacc in H.
  pose proof (withSession_saved (Router.signin PublicClientApplication env (query r2))
                w1 r2 (set_user (Some (userOf result a)) s1)) as Hw2.
  rewrite Hl2 in Hw2. simpl in Hw2. specialize (Hw2 _ _ H).
  fold cb in Hw2. rewrite Hw2.
  - split; [done|]. exists (set_user (Some (userOf result a)) s1), p1. simpl.
    rewrite lookup_insert_eq. done.
  - left. simpl. by rewrite lookup_insert_eq.
Qed.
End LoginFlow.

(** ** Route registration *)

Lemma otherRoutes_not_auth m paths :
  Forall (λ r : Route, isAuthRoute (snd r) = false) (otherRoutes m paths).
Proof. unfold otherRoutes. apply Forall_fmap, Forall_true. done. Qed.

(** Without [ENTRA_APP_ID] the router module is not mounted: the routes both
    entry points register after their own ones contain none of its login,
    callback, logout and account routes. *)
Lemma router_not_mounted_without_client_id apiPaths todoPaths metricsPaths (env : Env) :
  env !! "ENTRA_APP_ID" = None →
  Forall (λ r, isAuthRoute (snd r) = false)
         (commonRoutes apiPaths todoPaths metricsPaths env).
Proof.
  intros Hid. unfold commonRoutes, mountIf, pageRoutes. rewrite Hid. cbn [truthy].
  repeat (apply Forall_app; split);
    repeat case_match; auto using otherRoutes_not_auth.
Qed.

(** The entry point that leaves the flow to the router registers no login,
    callback, logout or account route without [ENTRA_APP_ID]. *)
Lemma server_routes_gated apiPaths todoPaths metricsPaths (env : Env) :
  env !! "ENTRA_APP_ID" = None →
  Forall (λ r, isAuthRoute (snd r) = false)
         (serverRoutes apiPaths todoPaths metricsPaths env).
Proof.
  intros Hid. unfold serverRoutes. rewrite Forall_app. split.
  - repeat constructor.
  - by apply router_not_mounted_without_client_id.
Qed.

Lemma server_routes_routerOnly apiPaths todoPaths metricsPaths (env : Env) :
  routerOnly (serverRoutes apiPaths todoPaths metricsPaths env).
Proof.
  unfold routerOnly, serverRoutes, commonRoutes, mountIf, pageRoutes, otherRoutes.
  repeat (apply Forall_app; split); repeat case_match;
    try (apply Forall_fmap, Forall_true; done); repeat constructor.
Qed.

(** Without a usable [ENTRA_APP_ID] (unset, or empty) the routes mounted
    by both entry points after their own ones hold no route of the login
    flow and no route of the router module. *)
Lemma commonRoutes_without_client_id apiPaths todoPaths metricsPaths (env : Env) :
  truthy (env !! "ENTRA_APP_ID") = false →
  Forall (λ r, isAuthRoute (snd r) = false ∧ isRouterEndpoint (snd r) = false)
         (commonRoutes apiPaths todoPaths metricsPaths env).
Proof.
  intros Hid. unfold commonRoutes, mountIf, pageRoutes, otherRoutes. rewrite Hid.
  repeat (apply Forall_app; split);
    repeat case_match; try (apply Forall_fmap, Forall_true; done); constructor.
Qed.

(** C6, as stated, fails: with no [ENTRA_APP_ID] in the environment the
    entry point with the inline flow has its login, callback and logout
    routes all the same, and a request to [/login] is answered with the
    redirect to the identity provider. *)
Lemma inline_login_registered_without_client_id :
  truthy (Scenario.noEnv !! "ENTRA_APP_ID") = false
  ∧ dispatch (serverInlineRoutes [] [] [] Scenario.noEnv) "/login" = Some InlineLogin
  ∧ dispatch (serverInlineRoutes [] [] [] Scenario.noEnv) "/signin" = Some InlineSignin
  ∧ dispatch (serverInlineRoutes [] [] [] Scenario.noEnv) "/logout" = Some InlineLogout
  ∧ isAuthRoute InlineLogin && isAuthRoute InlineSignin && isAuthRoute InlineLogout = true
  ∧ (Scenario.serveApp (serverInlineRoutes [] [] [] Scenario.noEnv) Scenario.noEnv
       initialWorld Scenario.loginRequest) ≫= snd
    = Some (Redirect ("https://login.microsoftonline.com/common/oauth2/v2.0/authorize"
                      +:+ "?code_challenge=TURFeU16UTFOamM0T1dGaVkyUmxaakF4TWpNME5UWTNPRGxoWW1Oa1pXWQ")).
Proof. split_and!; vm_compute; reflexivity. Qed.

(** C6, as the code has it. Without a usable [ENTRA_APP_ID] the routes of
    the router module are registered in neither entry point, and the entry
    point that leaves the login flow to the router has no login, callback,
    logout or account route at all. The entry point with the inline flow
    keeps, as its only routes of the login flow, its own [/login],
    [/signin] and [/logout], which answer the requests to these paths and
    work with the client identifier its configuration module holds. *)
Theorem router_gated_by_client_id apiPaths todoPaths metricsPaths (env : Env) :
  truthy (env !! "ENTRA_APP_ID") = false →
  let server := serverRoutes apiPaths todoPaths metricsPaths env in
  let inline := serverInlineRoutes apiPaths todoPaths metricsPaths env in
  Forall (λ r, isAuthRoute (snd r) = false ∧ isRouterEndpoint (snd r) = false) server
  ∧ Forall (λ r, isRouterEndpoint (snd r) = false) inline
  ∧ (∀ r, r ∈ inline → isAuthRoute (snd r) = true → r ∈ inlineAuthRoutes)
  ∧ (∀ r, r ∈ inlineAuthRoutes → dispatch inline (fst r) = Some (snd r))
  ∧ is_Some (clientId Inline.authConfig).
Proof.
  intros Hid server inline.
  pose proof (commonRoutes_without_client_id apiPaths todoPaths metricsPaths env Hid)
    as Hc.
  split_and!.
  - unfold server, serverRoutes. rewrite Forall_app. split; [|done].
    repeat constructor.
  - unfold inline, serverInlineRoutes. rewrite Forall_app. split.
    + repeat constructor.
    + eapply Forall_impl; [exact Hc|]. by intros r [_ ?].
  - intros r Hr Ha. unfold inline, serverInlineRoutes in Hr.
    apply elem_of_app in Hr as [Hr | Hr].
    + unfold inlineAuthRoutes.
      repeat (apply elem_of_cons in Hr as [-> | Hr];
              [simpl in Ha; try done; set_solver|]).
      by apply elem_of_nil in Hr.
    + rewrite Forall_forall in Hc. destruct (Hc r Hr) as [Hn _]. congruence.
  - intros r Hr. unfold inlineAuthRoutes in Hr.
    repeat (apply elem_of_cons in Hr as [-> | Hr]; [done|]).
    by apply elem_of_nil in Hr.
  - by eexists.
Qed.

Lemma router_gated_by_client_id_witness :
  Forall (λ r : Route, isAuthRoute (snd r) = false ∧ isRouterEndpoint (snd r) = false)
         (serverRoutes ["/api/weather"] ["/api/todo"] ["/metrics"]
            {[ "ENTRA_APP_ID" := "" ]})
  ∧ dispatch (serverInlineRoutes ["/api/weather"] ["/api/todo"] ["/metrics"]
                {[ "ENTRA_APP_ID" := "" ]}) "/login"
    = Some InlineLogin.
Proof.
  destruct (router_gated_by_client_id ["/api/weather"] ["/api/todo"] ["/metrics"]
              {[ "ENTRA_APP_ID" := "" ]}) as (H1 & _ & _ & H4 & _).
  - vm_compute. reflexivity.
  - split; [exact H1|].
    apply (H4 ("/login", InlineLogin)). unfold inlineAuthRoutes. constructor.
Defined.

(** ** The scenario, replayed *)

Lemma scenario_reachable :
  Scenario.ReachableApp Scenario.app Scenario.env Scenario.wLoggedIn.
Proof.
  unfold Scenario.ReachableApp.
  eapply (reach_step _ _ _ _ _ _ Scenario.wPending Scenario.callbackRequest).
  - eapply (reach_step _ _ _ _ _ _ initialWorld Scenario.loginRequest).
    + apply reach_init.
    + vm_compute. reflexivity.
  - vm_compute. reflexivity.
Qed.

(** C2, as stated, fails: after the login, the first callback with the code
    "ABC" reaches the token endpoint, and so does the second one. *)
Lemma second_callback_reaches_provider :
  (idpCalls <$> Scenario.serveAllApp Scenario.app Scenario.env initialWorld
                  [Scenario.loginRequest; Scenario.callbackRequest])
  = Some [Scenario.tokenRequest1]
  ∧ (idpCalls <$> Scenario.serveAllApp Scenario.app Scenario.env initialWorld
                    [Scenario.loginRequest; Scenario.callbackRequest;
                     Scenario.callbackRequest])
    = Some [Scenario.tokenRequest1; Scenario.tokenRequest1].
Proof. split; vm_compute; reflexivity. Qed.

Lemma second_callback_asks_provider_again_witness :
  let h := Router.signin Scenario.provider Scenario.env (Scenario.callback "S1") in
  idpCalls (fst (withSession h (fst (withSession h Scenario.wPending
                                       Scenario.callbackRequest))
                   Scenario.callbackRequest))
  = [Scenario.tokenRequest1; Scenario.tokenRequest1].
Proof.
  apply (second_callback_asks_provider_again Scenario.provider Scenario.env
           RouterFlow Scenario.wPending Scenario.callbackRequest "S1"
           Scenario.pending Scenario.tokenRequest1
           (Scenario.provider Inline.authConfig));
    vm_compute; reflexivity.
Defined.

(** C3, as stated, fails: login and callback leave the session "S1"
    authenticated, and the pkce pair is still on it. *)
Lemma pkce_survives_callback :
  (sessions <$> Scenario.serveAllApp Scenario.app Scenario.env initialWorld
                  [Scenario.loginRequest; Scenario.callbackRequest])
  = Some {[ "S1" := Scenario.loggedIn ]}
  ∧ stateOf Scenario.loggedIn = Authenticated
  ∧ pkcePresent Scenario.loggedIn = true
  ∧ (pkceCodes Scenario.loggedIn ≫= verifier) = Some "verifier-1".
Proof. split_and!; vm_compute; reflexivity. Qed.

Lemma login_then_callback_authenticates_witness :
  let w1 := fst (withSession (Router.login Scenario.provider Scenario.env
                                (pkce Scenario.loginRequest))
                   initialWorld Scenario.loginRequest) in
  let cb := withSession (Router.signin Scenario.provider Scenario.env
                           (query Scenario.callbackRequest))
              w1 Scenario.callbackRequest in
  snd cb = Some (Redirect "/account")
  ∧ ∃ s2 p, sessions (fst cb) !! "S1" = Some s2
            ∧ stateOf s2 = Authenticated
            ∧ user s2 = Some (userOf Scenario.aliceResult Scenario.alice)
            ∧ pkceCodes s2 = Some p
            ∧ verifier p = Some "verifier-1" ∧ challenge p = Some "challenge-1".
Proof.
  apply (login_then_callback_authenticates Scenario.provider Scenario.env
           initialWorld Scenario.loginRequest Scenario.callbackRequest
           "verifier-1" "challenge-1" (Scenario.provider Inline.authConfig)
           Scenario.aliceResult Scenario.alice);
    vm_compute; reflexivity.
Defined.

(** C5, as stated, fails: the world after login and callback is reachable,
    and its session carries the pkce pair and the identity at once. *)
Lemma pkce_and_identity_together :
  Scenario.ReachableApp Scenario.app Scenario.env
    {| sessions := {[ "S1" := Scenario.loggedIn ]};
       idpCalls := [Scenario.tokenRequest1] |}
  ∧ pkcePresent Scenario.loggedIn = true
  ∧ identityPresent Scenario.loggedIn = true.
Proof. split_and!; [apply scenario_reachable|reflexivity..]. Qed.

Lemma identity_only_with_pkce_witness :
  (identityPresent Scenario.loggedIn = true → pkcePresent Scenario.loggedIn = true)
  ∧ (routerOnly Scenario.app → pkcePresent Scenario.loggedIn = true).
Proof.
  apply (identity_only_with_pkce Scenario.provider Scenario.env Scenario.axiosDown
           Scenario.sha256 Scenario.encodeURIComponent Scenario.app
           Scenario.wLoggedIn scenario_reachable "S1" Scenario.loggedIn).
  vm_compute. reflexivity.
Defined.

Lemma logout_ends_session_witness :
  sessions Scenario.wLoggedOut !! "S1" = None
  ∧ Scenario.serveApp Scenario.app Scenario.env Scenario.wLater Scenario.accountRequest
    = Some (Scenario.wLater, Some (Redirect "/login")).
Proof.
  apply (logout_ends_session Scenario.provider Scenario.env Scenario.axiosDown
           Scenario.sha256 Scenario.encodeURIComponent Scenario.app
           Scenario.wLoggedIn Scenario.logoutRequest RouterLogout "S1"
           Scenario.wLoggedOut (Some (Redirect "/"))
           [Scenario.otherLogin] Scenario.wLater
           Scenario.accountRequest RouterAccount).
  - reflexivity.
  - vm_compute. reflexivity.
  - reflexivity.
  - vm_compute. reflexivity.
  - repeat constructor. discriminate.
  - vm_compute. reflexivity.
  - reflexivity.
  - vm_compute. reflexivity.
  - reflexivity.
Defined.

(** * Further properties of the code *)

(** ** Route tables *)

Lemma dispatch_app l1 l2 path :
  dispatch (l1 ++ l2) path
  = match dispatch l1 path with
    | Some e => Some e
    | None => dispatch l2 path
    end.
Proof.
  unfold dispatch. induction l1 as [|r l1 IH]; simpl; [by destruct (find _ l2)|].
  destruct (String.eqb (fst r) path); [done|]. apply IH.
Qed.

Lemma dispatch_path table path e :
  dispatch table path = Some e → (path, e) ∈ table.
Proof.
  unfold dispatch. intros H.
  destruct (find _ table) as [[p e']|] eqn:E; simplify_eq/=.
  apply find_some in E as [Hin Heq]. simpl in Heq.
  apply String.eqb_eq in Heq as ->. by apply list_elem_of_In.
Qed.

Lemma dispatch_None table path :
  path ∉ (fst <$> table) → dispatch table path = None.
Proof.
  intros Hn. destruct (dispatch table path) as [e|] eqn:E; [|done].
  apply dispatch_path in E. exfalso. apply Hn.
  apply list_elem_of_fmap. by exists (path, e).
Qed.

Lemma otherRoutes_elem m paths p e :
  (p, e) ∈ otherRoutes m paths → p ∈ paths ∧ e = Other m p.
Proof.
  unfold otherRoutes. intros (q & [= -> ->] & Hq)%list_elem_of_fmap. done.
Qed.

Lemma dispatch_otherRoutes_None m paths p :
  p ∉ paths → dispatch (otherRoutes m paths) p = None.
Proof.
  intros Hn. apply dispatch_None. unfold otherRoutes.
  rewrite <- list_fmap_compose. simpl. by rewrite list_fmap_id.
Qed.

(** A route of the router module among those both entry points register
    last sits at the path the router module gives it. *)
Lemma commonRoutes_router api todo metrics (env : Env) p e :
  (p, e) ∈ commonRoutes api todo metrics env →
  isRouterFlowStep e = true → p ∈ ["/login"; "/signin"; "/logout"].
Proof.
  unfold commonRoutes, mountIf, pageRoutes. intros Hin He.
  repeat (apply elem_of_app in Hin as [Hin|Hin]);
    repeat case_match; try (by apply elem_of_nil in Hin);
    try (apply otherRoutes_elem in Hin as [_ ->]; done).
  unfold authRoutes in Hin. simpl in Hin.
  repeat (apply elem_of_cons in Hin as [[= -> ->]|Hin]); try done;
    try set_solver.
Qed.

(** X8. In the entry point with the inline flow no path leads to the
    router module's [/login], [/signin] or [/logout] handler, whatever the
    environment and the other modules register: the inline routes of the
    same paths are registered first and answer. *)
Theorem inline_routes_shadow_router api todo metrics (env : Env) path e :
  dispatch (serverInlineRoutes api todo metrics env) path = Some e →
  isRouterFlowStep e = false.
Proof.
  intros Hd. destruct (isRouterFlowStep e) eqn:He; [exfalso|done].
  unfold serverInlineRoutes in Hd. rewrite dispatch_app in Hd.
  destruct (dispatch [_; _; _; _; _; _] path) as [e'|] eqn:E.
  - simplify_eq. apply dispatch_path in E.
    repeat (apply elem_of_cons in E as [[= -> ->]|E]); try done.
    by apply elem_of_nil in E.
  - apply dispatch_path in Hd.
    apply (commonRoutes_router _ _ _ _ _ _ Hd) in He.
    unfold dispatch in E. simpl in E.
    repeat (apply elem_of_cons in He as [->|He]); try done.
    by apply elem_of_nil in He.
Qed.

Lemma inline_routes_shadow_router_witness :
  isRouterFlowStep InlineSignin = false.
Proof.
  apply (inline_routes_shadow_router [] [] [] Samples.inlineEnv "/signin" InlineSignin).
  vm_compute. reflexivity.
Defined.

(** ** The order of registration *)

Lemma resolve_dispatch stack : ∀ b path,
  snd <$> resolve b stack path = dispatch (routesOf stack) path.
Proof.
  induction stack as [|[|r] stack IH]; intros b path; simpl; [done|apply IH|].
  unfold dispatch. simpl. destruct (String.eqb (fst r) path); [done|]. apply IH.
Qed.

Lemma routesOf_routes (rs : list Route) : routesOf (RouteLayer <$> rs) = rs.
Proof. unfold routesOf. induction rs as [|r rs IH]; simpl; [done|]. by f_equal. Qed.

Lemma resolve_after_session stack : ∀ path b e,
  resolve true stack path = Some (b, e) → b = true.
Proof.
  induction stack as [|[|r] stack IH]; intros path b e; simpl; [done|apply IH|].
  destruct (String.eqb (fst r) path); [by intros [= <- _]|apply IH].
Qed.

Lemma serverStack_routes api todo metrics (env : Env) :
  routesOf (serverStack api todo metrics env) = serverRoutes api todo metrics env.
Proof.
  unfold serverStack, serverRoutes, routesOf. rewrite omap_app. simpl.
  by rewrite <- (routesOf_routes (commonRoutes _ _ _ _)) at 2.
Qed.

Lemma serverInlineStack_routes api todo metrics (env : Env) :
  routesOf (serverInlineStack api todo metrics env)
  = serverInlineRoutes api todo metrics env.
Proof.
  unfold serverInlineStack, serverInlineRoutes, routesOf. rewrite omap_app. simpl.
  by rewrite <- (routesOf_routes (commonRoutes _ _ _ _)) at 2.
Qed.

(** X10. Which routes run without a session. In the entry point with the
    inline flow every route is registered after the session middleware; in
    the router-only entry point the only routes registered before it are
    the entry point's own [/] and [/health], so every route of the login
    flow finds [req.session] set. *)
Theorem routes_before_session_middleware api todo metrics (env : Env) path b e :
  resolve false (serverInlineStack api todo metrics env) path = Some (b, e)
  ∨ (resolve false (serverStack api todo metrics env) path = Some (b, e)
     ∧ ¬ (e = Other "server" path ∧ (path = "/" ∨ path = "/health"))) →
  b = true.
Proof.
  intros [H|[H Hn]].
  - apply (resolve_after_session
             (tail (serverInlineStack api todo metrics env)) path b e H).
  - revert H. unfold serverStack. cbn -[String.eqb].
    destruct (String.eqb "/" path) eqn:E1.
    { apply String.eqb_eq in E1 as <-. intros [= <- <-]. destruct Hn. auto. }
    destruct (String.eqb "/health" path) eqn:E2.
    { apply String.eqb_eq in E2 as <-. intros [= <- <-]. destruct Hn. auto. }
    apply resolve_after_session.
Qed.

Lemma routes_before_session_middleware_witness : true = true.
Proof.
  apply (routes_before_session_middleware [] [] [] Scenario.env "/signin" true
           RouterSignin).
  right. split; [vm_compute; reflexivity|]. intros [[=] _].
Defined.

(** X11. The home page of the router-only entry point: [GET /] is answered
    by the handler the entry point registers before the session middleware,
    so it renders the index page as not authenticated and without a user,
    whatever the session store holds for the cookie. *)
Theorem server_home_ignores_session api todo metrics (env : Env) (w : World) cookie :
  serverGet api todo metrics env w cookie "/"
  = Some (inl (Render "index"
                 {| title := "Home"; message := None;
                    isAuthenticated := Some false; l_user := None;
                    details := None; photo := None |})).
Proof. reflexivity. Qed.

(** X12. The router-only entry point without a usable [ENTRA_APP_ID] (unset
    or empty): as long as no other module serves them, [/login], [/signin],
    [/logout] and [/account] have no route, and a GET request to them gets
    the error page with status 404 and the message 'Not Found'. *)
Theorem login_flow_disabled_without_client_id api todo metrics (env : Env)
    (w : World) cookie path :
  truthy (env !! "ENTRA_APP_ID") = false →
  path ∈ ["/login"; "/signin"; "/logout"; "/account"] →
  path ∉ api → path ∉ todo → path ∉ metrics →
  dispatch (serverRoutes api todo metrics env) path = None
  ∧ ∃ page, serverGet api todo metrics env w cookie path = Some (inr page)
            ∧ sr_status page = 404 ∧ sr_view page = "error"
            ∧ message (sr_locals page) = Some "Not Found".
Proof.
  intros Hid Hp Ha Ht Hm.
  assert (Hd : dispatch (serverRoutes api todo metrics env) path = None).
  { unfold serverRoutes, commonRoutes, mountIf. rewrite Hid.
    rewrite !dispatch_app.
    rewrite (dispatch_otherRoutes_None "api" api path Ha).
    assert (dispatch (if negb (bool_decide (env !! "DISABLE_METRICS" = Some "true"))
                      then otherRoutes "metrics" metrics else []) path = None) as ->.
    { destruct (negb _); [by apply dispatch_otherRoutes_None|done]. }
    assert (dispatch (if truthy (env !! "TODO_MONGO_CONNSTR")
                      then otherRoutes "todo" todo else []) path = None) as ->.
    { destruct (truthy (env !! "TODO_MONGO_CONNSTR"));
        [by apply dispatch_otherRoutes_None|done]. }
    repeat (apply elem_of_cons in Hp as [->|Hp]); try done.
    by apply elem_of_nil in Hp. }
  split; [done|].
  pose proof (resolve_dispatch (serverStack api todo metrics env) false path) as Hr.
  rewrite serverStack_routes, Hd in Hr. unfold serverGet.
  destruct (resolve false _ path) as [[b e]|]; [done|].
  eexists. split; [reflexivity|]. done.
Qed.

Lemma login_flow_disabled_without_client_id_witness :
  dispatch (serverRoutes [] [] [] Scenario.noEnv) "/login" = None
  ∧ ∃ page, serverGet [] [] [] Scenario.noEnv initialWorld None "/login"
            = Some (inr page)
            ∧ sr_status page = 404 ∧ sr_view page = "error"
            ∧ message (sr_locals page) = Some "Not Found".
Proof.
  apply (login_flow_disabled_without_client_id [] [] [] Scenario.noEnv
           initialWorld None "/login").
  - reflexivity.
  - apply elem_of_cons. by left.
  - apply not_elem_of_nil.
  - apply not_elem_of_nil.
  - apply not_elem_of_nil.
Defined.

(** ** What a request can and cannot do *)

Section RequestFacts.
Variable PublicClientApplication : MsalConfig → MsalApp.
Variable env : Env.
Variable axios : Graph.GraphReq → Exn + string.
Variable sha256 : string → string.
Variable encodeURIComponent : string → string.

#[local] Abbreviation serve2 :=
  (serve PublicClientApplication env axios sha256 encodeURIComponent).
#[local] Abbreviation handlerOf2 :=
  (handlerOf PublicClientApplication env axios sha256 encodeURIComponent).
#[local] Abbreviation Reachable2 :=
  (Reachable PublicClientApplication env axios sha256 encodeURIComponent).

(** X1. A request of the login flow that is answered only ever touches
    the session of its own cookie (or the one started for it): every other
    record of the store is after the request what it was before. *)
Theorem request_touches_own_session_only table (w : World) r w' resp sid :
  serve2 table w r = Some (w', Some resp) →
  sid ≠ fst (loadSession w r) →
  sessions w' !! sid = sessions w !! sid.
Proof.
  intros (e & h & _ & Hh & Hw)%serve_inv Hne.
  replace w' with (fst (withSession h w r)) by (by rewrite Hw).
  apply withSession_other; [by eapply handlers_wellBehaved|done].
Qed.

#[local] Set Warnings "-clear-no-such-hyp".
Lemma handler_token_calls e r h sid (ss : gmap string Session) s calls :
  handlerOf2 e r = Some h →
  let st' := exec h (entry sid ss s calls) in
  tokenCalls st' = calls
  ∨ (isSignin e = true ∧ ∃ tr, tokenCalls st' = calls ++ [tr]).
Proof.
  intros He.
  destruct e; simplify_eq/=; run_handler;
    repeat (case_match; simplify_eq/=); eauto.
Qed.

Lemma protected_exec e r h sid (ss : gmap string Session) s calls :
  isProtected e = true → handlerOf2 e r = Some h →
  ∃ resp, exec h (entry sid ss s calls)
          = {| sessionID := sid; store := ss; req_session := Some s;
               tokenCalls := calls; res := Some resp |}.
Proof.
  intros Hp He.
  destruct e; simplify_eq/=; run_handler;
    repeat (case_match; simplify_eq/=); eauto;
    destruct (user s); simplify_eq/=.
Qed.

Lemma other_handlers_keep_router_fields e r h sid (ss : gmap string Session) s calls :
  isRouterFlowStep e = false → handlerOf2 e r = Some h →
  noRouterFields s →
  match req_session (exec h (entry sid ss s calls)) with
  | Some s' => noRouterFields s'
  | None => True
  end.
Proof.
  intros Hn He [Hp Hu]. unfold noRouterFields.
  destruct e; simplify_eq/=; run_handler;
    repeat (case_match; simplify_eq/=); eauto.
Qed.
#[local] Set Warnings "+clear-no-such-hyp".

(** X2. Only the two callbacks contact the token endpoint of the provider,
    and with one request at most: every other request of the login flow
    ([/login], [/logout], [/account], the protected routes) leaves the
    provider alone. *)
Theorem only_callback_contacts_provider table (w : World) r w' resp e :
  dispatch table (path r) = Some e →
  serve2 table w r = Some (w', resp) →
  idpCalls w' = idpCalls w
  ∨ (isSignin e = true ∧ ∃ tr, idpCalls w' = idpCalls w ++ [tr]).
Proof.
  intros Hd (e' & h & Hd' & Hh & Hw)%serve_inv.
  rewrite Hd in Hd'. simplify_eq.
  unfold withSession in Hw. simplify_eq/=.
  apply (handler_token_calls e' r h _ _ _ _ Hh).
Qed.

(** X3. A request to a protected route ([/account] of the router, [/] and
    [/protected] of the inline flow) always gets a response and changes
    nothing: the store and the provider calls are the same afterwards,
    whether the session is authenticated or not. *)
Theorem protected_request_changes_nothing table (w : World) r w' resp e :
  dispatch table (path r) = Some e → isProtected e = true →
  serve2 table w r = Some (w', resp) →
  w' = w ∧ is_Some resp.
Proof.
  intros Hd Hp (e' & h & Hd' & Hh & Hw)%serve_inv.
  rewrite Hd in Hd'. simplify_eq.
  destruct (protected_exec e' r h (fst (loadSession w r)) (sessions w)
              (snd (loadSession w r)) (idpCalls w) Hp Hh) as [rsp He].
  unfold withSession in Hw. unfold entry in He. rewrite He in Hw. simpl in Hw.
  rewrite decide_True in Hw by done. simplify_eq. split; [by destruct w|eauto].
Qed.

(** X4. The callback of the router throws out of the handler exactly on
    the sessions that have not been through [/login] (no [pkceCodes], as
    for a browser without a session): reading the verifier there raises a
    [TypeError] before the [try], whatever the query and the environment
    are, and up to that point the handler has sent no response, has not
    contacted the provider and has not touched session or store. *)
Theorem callback_without_login_throws q sid (ss : gmap string Session) s calls :
  let h := Router.signin PublicClientApplication env q in
  crashed h (entry sid ss s calls) = bool_decide (pkceCodes s = None)
  ∧ (pkceCodes s = None →
     h (entry sid ss s calls)
     = (Throw (TypeError "Cannot read properties of undefined (reading 'verifier')"),
        entry sid ss s calls)).
Proof.
  pose proof (router_signin_cases PublicClientApplication env q sid ss s calls) as H.
  simpl in H. simpl. split.
  - destruct (pkceCodes s); [by destruct H as [-> _]|by destruct H as [_ ->]].
  - intros Hp. unfold Router.signin, bind, getSession, lift, entry. simpl.
    by rewrite Hp.
Qed.

(** X5. The inline callback needs no login before it: for a browser without
    a session it sends the token request without a code verifier, and when
    the provider redeems the code it starts a session that holds the access
    token and redirects to [/]. *)
Theorem inline_callback_without_login (w : World) r result :
  (∀ sid, cookie r = Some sid → sessions w !! sid = None) →
  acquireTokenByCode (Inline.msalClient PublicClientApplication) (idpCalls w)
    (inlineTokenRequest (query r) emptySession) = inr result →
  tr_codeVerifier (inlineTokenRequest (query r) emptySession) = None
  ∧ withSession (Inline.signin PublicClientApplication (query r)) w r
    = ({| sessions := <[freshID r :=
                          set_accessToken (Some (ar_accessToken result)) emptySession]>
                        (sessions w);
          idpCalls := idpCalls w ++ [inlineTokenRequest (query r) emptySession] |},
       Some (Redirect "/")).
Proof.
  intros Hn Hacq. split; [done|].
  assert (Hl : loadSession w r = (freshID r, emptySession)).
  { unfold loadSession. destruct (cookie r) as [sid|]; [|done]. by rewrite Hn. }
  pose proof (inline_signin_cases PublicClientApplication (query r) (freshID r)
                (sessions w) emptySession (idpCalls w)) as [_ He].
  simpl in He. rewrite Hacq in He.
  pose proof (withSession_saved (Inline.signin PublicClientApplication (query r)) w r)
    as Hs.
  rewrite Hl in Hs. simpl in Hs. apply Hs; [done|]. by right.
Qed.

(** X6. [GET /login] of the router never signs anybody in or out: the
    [user] of the session is what it was, so an authenticated session stays
    authenticated while a new pkce pair is put on it; the provider's token
    endpoint is not contacted and a response is always sent. When the
    generator fails the session is left as it was. *)
Theorem login_keeps_identity pk sid (ss : gmap string Session) s calls :
  let st' := exec (Router.login PublicClientApplication env pk) (entry sid ss s calls) in
  user <$> req_session st' = Some (user s)
  ∧ store st' = ss ∧ tokenCalls st' = calls ∧ is_Some (res st')
  ∧ match pk with
    | inl _ => req_session st' = Some s
    | inr (v, c) =>
        ((req_session st' ≫= pkceCodes) ≫= verifier) = Some v
        ∧ ((req_session st' ≫= pkceCodes) ≫= challenge) = Some c
    end.
Proof.
  destruct pk as [err|[v c]].
  - run_handler. split_and!; eauto.
  - destruct (router_login_exec PublicClientApplication env v c sid ss s calls)
      as [resp He].
    simpl. rewrite He. simpl. split_and!; eauto.
Qed.

(** X7. [GET /login] of the inline flow: the new verifier, the base64url
    text of the random bytes, is on the session whatever becomes of the
    authorization URL, which is asked for with the base64url SHA-256 of the
    verifier as the S256 challenge; the answer is the redirect to that URL,
    or status 500 when it cannot be had. Nothing else changes. *)
Theorem inline_login_stores_verifier rand sid (ss : gmap string Session) s calls :
  let v := base64url rand in
  let params := {| p_scopes := ["user.read"];
                   p_redirectUri := Some Inline.REDIRECT_URI;
                   p_codeChallenge := Some (base64url (sha256 v));
                   p_codeChallengeMethod := Some "S256" |} in
  exec (Inline.login PublicClientApplication sha256 rand) (entry sid ss s calls)
  = {| sessionID := sid; store := ss;
       req_session := Some (set_codeVerifier (Some v) s);
       tokenCalls := calls;
       res := Some match getAuthCodeUrl (Inline.msalClient PublicClientApplication)
                           params with
                   | inr url => Redirect url
                   | inl _ => Send 500 "Authentication initialization failed"
                   end |}.
Proof.
  run_handler. unfold Inline.generateCodeChallenge, Inline.generateCodeVerifier.
  by destruct (getAuthCodeUrl _ _).
Qed.

Lemma inline_reachable_noRouterFields api todo metrics (w : World) :
  Reachable2 (serverInlineRoutes api todo metrics env) w →
  ∀ sid s, sessions w !! sid = Some s → noRouterFields s.
Proof.
  induction 1 as [|w r w' resp _ IH Hs].
  - intros sid s. simpl. by rewrite lookup_empty.
  - apply serve_inv in Hs as (e & h & Hd & Hh & Hw). intros sid s.
    replace w' with (fst (withSession h w r)) by (by rewrite Hw).
    destruct (decide (sid = fst (loadSession w r))) as [->|Hne].
    + pose proof (handlers_wellBehaved _ _ _ _ _ e r h Hh
                    (fst (loadSession w r)) (sessions w) (snd (loadSession w r))
                    (idpCalls w)) as [_ Hwb].
      assert (Hl : noRouterFields (snd (loadSession w r))).
      { destruct (loadSession_cases w r) as [(sid' & s0 & _ & Hs0 & ->)|[_ ->]];
          simpl; [eauto|done]. }
      assert (Hne : isRouterFlowStep e = false).
      { destruct (isRouterFlowStep e) eqn:He; [exfalso|done].
        unfold serverInlineRoutes in Hd. rewrite dispatch_app in Hd.
        destruct (dispatch [_; _; _; _; _; _] (path r)) as [e'|] eqn:E.
        - simplify_eq. apply dispatch_path in E.
          repeat (apply elem_of_cons in E as [[= ? ?]|E]); subst; try done.
          by apply elem_of_nil in E.
        - apply dispatch_path in Hd.
          apply (commonRoutes_router _ _ _ _ _ _ Hd) in He.
          unfold dispatch in E. simpl in E.
          repeat (apply elem_of_cons in He as [Hp|He]); try (rewrite Hp in E; done).
          by apply elem_of_nil in He. }
      pose proof (other_handlers_keep_router_fields e r h
                    (fst (loadSession w r)) (sessions w) (snd (loadSession w r))
                    (idpCalls w) Hne Hh Hl) as Hk.
      unfold withSession. simpl. unfold entry in Hwb, Hk. simpl in Hwb.
      destruct (req_session (exec h _)) as [s'|].
      * destruct Hwb as [-> _]. destruct (res (exec h _)); [|apply IH].
        case_decide; [apply IH|]. rewrite lookup_insert_eq. by intros [= <-].
      * rewrite Hwb. destruct (res (exec h _)); by rewrite lookup_delete_eq.
    + rewrite withSession_other; [apply IH|by eapply handlers_wellBehaved|done].
Qed.

(** X9. The entry point with the inline flow never signs a user in as far
    as the router module and the pages are concerned: in every world it can
    reach no stored session has [user], the pages see every request as not
    authenticated, and [/account] of the router, where it is mounted,
    answers every request with the redirect to [/login]. *)
Theorem inline_entry_point_never_signs_in api todo metrics (w : World) r :
  Reachable2 (serverInlineRoutes api todo metrics env) w →
  (∀ sid s, sessions w !! sid = Some s → user s = None)
  ∧ Pages.locals (Some (snd (loadSession w r))) = (None, false)
  ∧ (dispatch (serverInlineRoutes api todo metrics env) (path r) = Some RouterAccount →
     serve2 (serverInlineRoutes api todo metrics env) w r
     = Some (w, Some (Redirect "/login"))).
Proof.
  intros Hr.
  pose proof (inline_reachable_noRouterFields api todo metrics w Hr) as Hall.
  assert (Hl : user (snd (loadSession w r)) = None).
  { destruct (loadSession_cases w r) as [(sid' & s0 & _ & Hs0 & ->)|[_ ->]];
      simpl; [by apply (Hall sid' s0)|done]. }
  split_and!.
  - intros sid s Hs. by apply (Hall sid s).
  - unfold Pages.locals, Router.sessionAccount. simpl. by rewrite Hl.
  - intros Hd. unfold serve. rewrite Hd. simpl.
    unfold withSession. run_handler. rewrite Hl. simpl.
    rewrite decide_True by done. by destruct w.
Qed.
End RequestFacts.

Lemma request_touches_own_session_only_witness :
  sessions (fst Samples.afterOtherLogin) !! "S1"
  = sessions Scenario.wLoggedIn !! "S1".
Proof.
  apply (request_touches_own_session_only Scenario.provider Scenario.env
           Scenario.axiosDown Scenario.sha256 Scenario.encodeURIComponent
           Scenario.app Scenario.wLoggedIn Scenario.otherLogin
           (fst Samples.afterOtherLogin)
           (default (Send 0 "") (snd Samples.afterOtherLogin)) "S1").
  - vm_compute. reflexivity.
  - vm_compute. discriminate.
Defined.

Lemma only_callback_contacts_provider_witness :
  idpCalls (fst Samples.afterCallback) = idpCalls Scenario.wPending
  ∨ (isSignin RouterSignin = true
     ∧ ∃ tr, idpCalls (fst Samples.afterCallback)
             = idpCalls Scenario.wPending ++ [tr]).
Proof.
  apply (only_callback_contacts_provider Scenario.provider Scenario.env
           Scenario.axiosDown Scenario.sha256 Scenario.encodeURIComponent
           Scenario.app Scenario.wPending Scenario.callbackRequest
           (fst Samples.afterCallback) (snd Samples.afterCallback) RouterSignin).
  - vm_compute. reflexivity.
  - vm_compute. reflexivity.
Defined.

Lemma protected_request_changes_nothing_witness :
  fst Samples.afterAccount = Scenario.wLoggedIn
  ∧ is_Some (snd Samples.afterAccount).
Proof.
  apply (protected_request_changes_nothing Scenario.provider Scenario.env
           Scenario.axiosDown Scenario.sha256 Scenario.encodeURIComponent
           Scenario.app Scenario.wLoggedIn Scenario.accountRequest
           (fst Samples.afterAccount) (snd Samples.afterAccount) RouterAccount).
  - vm_compute. reflexivity.
  - reflexivity.
  - vm_compute. reflexivity.
Defined.

Lemma callback_without_login_throws_witness :
  Router.signin Scenario.provider Scenario.env (query Samples.strangerCallback)
    (entry "S9" ∅ emptySession [])
  = (Throw (TypeError "Cannot read properties of undefined (reading 'verifier')"),
     entry "S9" ∅ emptySession []).
Proof.
  destruct (callback_without_login_throws Scenario.provider Scenario.env
              (query Samples.strangerCallback) "S9" ∅ emptySession []) as [_ H].
  apply H. reflexivity.
Defined.

Lemma inline_callback_without_login_witness :
  tr_codeVerifier (inlineTokenRequest (query Samples.strangerCallback) emptySession)
  = None
  ∧ withSession (Inline.signin Samples.laxProvider (query Samples.strangerCallback))
      initialWorld Samples.strangerCallback
    = ({| sessions :=
            <[freshID Samples.strangerCallback :=
                set_accessToken (Some (ar_accessToken Scenario.aliceResult))
                  emptySession]> (sessions initialWorld);
          idpCalls :=
            idpCalls initialWorld
            ++ [inlineTokenRequest (query Samples.strangerCallback) emptySession] |},
       Some (Redirect "/")).
Proof.
  apply (inline_callback_without_login Samples.laxProvider initialWorld
           Samples.strangerCallback Scenario.aliceResult).
  - intros sid H. vm_compute in H. discriminate.
  - vm_compute. reflexivity.
Defined.

Lemma inline_scenario_reachable :
  Scenario.ReachableApp Samples.inlineApp Samples.inlineEnv Samples.wInline.
Proof.
  unfold Scenario.ReachableApp.
  eapply (reach_step _ _ _ _ _ _ _ Scenario.callbackRequest).
  - eapply (reach_step _ _ _ _ _ _ initialWorld Scenario.loginRequest).
    + apply reach_init.
    + vm_compute. reflexivity.
  - vm_compute. reflexivity.
Qed.

Lemma inline_entry_point_never_signs_in_witness :
  (∀ sid s, sessions Samples.wInline !! sid = Some s → user s = None)
  ∧ Pages.locals (Some (snd (loadSession Samples.wInline Scenario.accountRequest)))
    = (None, false)
  ∧ (dispatch Samples.inlineApp (path Scenario.accountRequest) = Some RouterAccount →
     Scenario.serveApp Samples.inlineApp Samples.inlineEnv Samples.wInline
       Scenario.accountRequest
     = Some (Samples.wInline, Some (Redirect "/login"))).
Proof.
  apply (inline_entry_point_never_signs_in Scenario.provider Samples.inlineEnv
           Scenario.axiosDown Scenario.sha256 Scenario.encodeURIComponent
           [] [] [] Samples.wInline Scenario.accountRequest).
  apply inline_scenario_reachable.
Defined.

(** The inline session of the scenario is authenticated for the inline
    flow, and the account route is mounted in its application. *)
Example inline_scenario_facts :
  (inlineStateOf <$> sessions Samples.wInline !! "S1") = Some Authenticated
  ∧ dispatch Samples.inlineApp "/account" = Some RouterAccount.
Proof. split; vm_compute; reflexivity. Qed.

(** ** The routes that report on the session *)

(** X13. Neither status route gives a secret away: what [/auth-status]
    sends does not depend on the access token, the pkce codes or the fields
    of the inline flow at all, and what [/debug-session] sends depends on
    the access token only through its being non-empty. *)
Theorem status_routes_hide_secrets s p v a t1 t2 :
  t1 ≠ "" → t2 ≠ "" →
  authStatus (Some (withSecrets p v a (withToken t1 s))) = authStatus (Some s)
  ∧ debugSession (Some (withSecrets p v a (withToken t1 s)))
    = debugSession (Some (withToken t2 s)).
Proof.
  intros H1 H2. unfold authStatus, debugSession, withSecrets, withToken. simpl.
  destruct (user s) as [u|]; simpl; [|done]. split; [done|].
  unfold truthy. destruct t1, t2; done.
Qed.

Lemma status_routes_hide_secrets_witness :
  authStatus (Some (withSecrets None (Some "v") (Some "t")
                      (withToken "token-2" Scenario.loggedIn)))
  = authStatus (Some Scenario.loggedIn)
  ∧ debugSession (Some (withSecrets None (Some "v") (Some "t")
                          (withToken "token-2" Scenario.loggedIn)))
    = debugSession (Some (withToken "token-3" Scenario.loggedIn)).
Proof.
  apply (status_routes_hide_secrets Scenario.loggedIn None (Some "v") (Some "t")
           "token-2" "token-3"); discriminate.
Defined.

(** X14. The places that report whether the user is signed in agree with
    the middleware of the router: [isAuthenticated] of [/auth-status],
    [hasUser] of [/debug-session] and [res.locals.isAuthenticated] of the
    pages are true exactly for the sessions [ensureAuthenticated] lets
    through. *)
Theorem status_routes_agree_with_middleware s :
  (∃ u, authStatus (Some s)
        = inr (JObject [("isAuthenticated", JBool (accepts Router.ensureAuthenticated s));
                        ("user", u)]))
  ∧ (∃ c, debugSession (Some s)
          = JObject [("hasSession", JBool true);
                     ("hasUser", JBool (accepts Router.ensureAuthenticated s));
                     ("sessionContent", c)])
  ∧ snd (Pages.locals (Some s)) = accepts Router.ensureAuthenticated s.
Proof.
  unfold authStatus, debugSession, Pages.locals, accepts. run_handler.
  destruct (user s); simpl; eauto.
Qed.

(** ** The info page *)

Lemma Qfloor_unique (x : Q) (z : Z) :
  (inject_Z z <= x)%Q → (x < inject_Z (z + 1))%Q → Qfloor x = z.
Proof.
  intros H1 H2.
  pose proof (Qfloor_le x). pose proof (Qlt_floor x).
  assert (inject_Z z < inject_Z (Qfloor x + 1))%Q as Ha by lra.
  assert (inject_Z (Qfloor x) < inject_Z (z + 1))%Q as Hb by lra.
  rewrite <- Zlt_Qlt in Ha, Hb. lia.
Qed.

Lemma trunc_floor (x : Q) : (0 <= x)%Q → Pages.trunc x = Qfloor x.
Proof.
  intros H. unfold Pages.trunc, Qfloor. destruct x as [a b]. simpl.
  unfold Qle in H. simpl in H. apply Z.quot_div_nonneg; lia.
Qed.

Lemma Qfloor_bounds (x : Q) :
  (inject_Z (Qfloor x) <= x)%Q ∧ (x < inject_Z (Qfloor x) + 1)%Q.
Proof.
  split; [apply Qfloor_le|].
  pose proof (Qlt_floor x) as H. by rewrite inject_Z_plus in H.
Qed.

Lemma inject_Z_lt (a b : Z) : (inject_Z a < inject_Z b)%Q → (a < b)%Z.
Proof. by rewrite <- Zlt_Qlt. Qed.

(** One division step on a number that is not negative: the quotient
    [Math.floor(x / d)] and the rest [x % d]. *)
Lemma floor_rem (x d : Q) :
  (0 <= x)%Q → (0 < d)%Q →
  (Pages.rem x d == x - inject_Z (Qfloor (x / d)) * d)%Q
  ∧ (inject_Z (Qfloor (x / d)) * d <= x)%Q
  ∧ (x < (inject_Z (Qfloor (x / d)) + 1) * d)%Q.
Proof.
  intros Hx Hd.
  assert (0 <= x / d)%Q as Hq by (apply Qle_shift_div_l; [done|lra]).
  assert (d * (x / d) == x)%Q as E by (apply Qmult_div_r; lra).
  destruct (Qfloor_bounds (x / d)) as [H1 H2].
  split_and!.
  - unfold Pages.rem. by rewrite trunc_floor.
  - rewrite <- E at 2. rewrite (Qmult_comm d). apply Qmult_le_compat_r; lra.
  - rewrite <- E at 1. rewrite (Qmult_comm d). apply Qmult_lt_compat_r; lra.
Qed.

(** X15. [convertSeconds] on a number of seconds that is not negative (and
    not above 2^52): nothing it shows is negative, the hours are below 24,
    the minutes below 60, the seconds at most 60, and days, hours, minutes
    and seconds add up to the number rounded to the nearest second. On a
    whole number the seconds are below 60 and the sum is the number
    itself; on a fraction the seconds can come out as 60. *)
Theorem convertSeconds_parts (n : Q) :
  (0 <= n)%Q → (n <= inject_Z (2 ^ 52))%Q →
  let '(days, hours, mins, secs) := Pages.convertParts n in
  (0 ≤ days ∧ 0 ≤ hours < 24 ∧ 0 ≤ mins < 60 ∧ 0 ≤ secs ≤ 60
   ∧ days * 86400 + hours * 3600 + mins * 60 + secs = Pages.round n)%Z
  ∧ ((n == inject_Z (Qfloor n))%Q →
     (secs < 60)%Z
     ∧ (inject_Z (days * 86400 + hours * 3600 + mins * 60 + secs) == n)%Q).
Proof.
  intros Hn _. unfold Pages.convertParts, Pages.floor, Pages.round. cbv zeta.
  set (r1 := Pages.rem n _).
  set (r2 := Pages.rem r1 _).
  set (r3 := Pages.rem r2 _).
  destruct (floor_rem n (24 * 3600)) as (E1 & Hd1 & Hd2); [done|lra|]. fold r1 in E1.
  assert (0 <= r1 ∧ r1 < 86400)%Q as [? ?] by (split; lra).
  destruct (floor_rem r1 3600) as (E2 & Hh1 & Hh2); [done|lra|]. fold r2 in E2.
  assert (0 <= r2 ∧ r2 < 3600)%Q as [? ?] by (split; lra).
  destruct (floor_rem r2 60) as (E3 & Hm1 & Hm2); [done|lra|]. fold r3 in E3.
  assert (0 <= r3 ∧ r3 < 60)%Q as [? ?] by (split; lra).
  destruct (Qfloor_bounds (r3 + (1 # 2))) as [Hs1 Hs2].
  set (days := Qfloor (n / (24 * 3600))) in *.
  set (hours := Qfloor (r1 / 3600)) in *.
  set (mins := Qfloor (r2 / 60)) in *.
  set (secs := Qfloor (r3 + (1 # 2))) in *.
  clearbody days hours mins secs r1 r2 r3.
  assert (-1 < days)%Z by (apply inject_Z_lt; change (inject_Z (-1)) with (-1)%Q; lra).
  assert (-1 < hours < 24)%Z.
  { split; apply inject_Z_lt;
      [change (inject_Z (-1)) with (-1)%Q|change (inject_Z 24) with 24%Q]; lra. }
  assert (-1 < mins < 60)%Z.
  { split; apply inject_Z_lt;
      [change (inject_Z (-1)) with (-1)%Q|change (inject_Z 60) with 60%Q]; lra. }
  assert (-1 < secs < 61)%Z.
  { split; apply inject_Z_lt;
      [change (inject_Z (-1)) with (-1)%Q|change (inject_Z 61) with 61%Q]; lra. }
  assert (inject_Z (days * 86400 + hours * 3600 + mins * 60 + secs)
          == n - r3 + inject_Z secs)%Q as Et.
  { rewrite !inject_Z_plus, !inject_Z_mult.
    change (inject_Z 86400) with 86400%Q. change (inject_Z 3600) with 3600%Q.
    change (inject_Z 60) with 60%Q. lra. }
  split.
  - split_and!; try lia.
    symmetry. apply Qfloor_unique.
    + rewrite Et. lra.
    + rewrite inject_Z_plus, Et. change (inject_Z 1) with 1%Q. lra.
  - intros Hw.
    assert (r3 == inject_Z (Qfloor n + - (days * 86400 + hours * 3600 + mins * 60)))%Q
      as Hr.
    { rewrite !inject_Z_plus, inject_Z_opp, !inject_Z_plus, !inject_Z_mult.
      change (inject_Z 86400) with 86400%Q. change (inject_Z 3600) with 3600%Q.
      change (inject_Z 60) with 60%Q. lra. }
    set (k := (Qfloor n + - (days * 86400 + hours * 3600 + mins * 60))%Z) in *.
    clearbody k.
    assert (secs = k) as Hk.
    { assert (k < secs + 1)%Z
        by (apply inject_Z_lt; rewrite inject_Z_plus; change (inject_Z 1) with 1%Q; lra).
      assert (secs < k + 1)%Z
        by (apply inject_Z_lt; rewrite inject_Z_plus; change (inject_Z 1) with 1%Q; lra).
      lia. }
    split.
    + apply inject_Z_lt. change (inject_Z 60) with 60%Q. rewrite Hk. lra.
    + rewrite Et, Hk. lra.
Qed.

Lemma convertSeconds_parts_witness :
  let '(days, hours, mins, secs) := Pages.convertParts (937846 # 10) in
  (0 ≤ days ∧ 0 ≤ hours < 24 ∧ 0 ≤ mins < 60 ∧ 0 ≤ secs ≤ 60
   ∧ days * 86400 + hours * 3600 + mins * 60 + secs = Pages.round (937846 # 10))%Z.
Proof.
  apply (convertSeconds_parts (937846 # 10)); vm_compute; discriminate.
Defined.

Example convertSeconds_example :
  Pages.convertSeconds 93784 = "1 days, 2 hours, 3 mins, 4 seconds"
  ∧ Pages.convertSeconds (596 # 10) = "0 days, 0 hours, 0 mins, 60 seconds".
Proof. split; vm_compute; reflexivity. Qed.

Lemma beforeDash_split s :
  ∃ rest, s = Pages.beforeDash s +:+ rest
          ∧ (rest = "" ∨ ∃ r, rest = String "-" r).
Proof.
  induction s as [|a s (rest & IH & Hr)]; simpl.
  - exists "". auto.
  - destruct (Ascii.eqb a "-") eqn:E.
    + apply Ascii.eqb_eq in E as ->. exists (String "-" s). split; [done|eauto].
    + exists rest. split; [|done]. unfold String.append; fold String.append.
      by f_equal.
Qed.

Lemma beforeDash_no_dash s :
  ("-"%char) ∉ String.list_ascii_of_string (Pages.beforeDash s).
Proof.
  induction s as [|a s IH]; simpl; [apply not_elem_of_nil|].
  destruct (Ascii.eqb a "-") eqn:E; simpl; [apply not_elem_of_nil|].
  apply not_elem_of_cons. split; [|done].
  intros <-. by rewrite Ascii.eqb_refl in E.
Qed.

Lemma beforeDash_id s :
  ("-"%char) ∉ String.list_ascii_of_string s → Pages.beforeDash s = s.
Proof.
  induction s as [|a s IH]; simpl; [done|].
  intros [Hne Hs]%not_elem_of_cons.
  destruct (Ascii.eqb a "-") eqn:E.
  - apply Ascii.eqb_eq in E. congruence.
  - f_equal. auto.
Qed.

Lemma local_no_dash : ("-"%char) ∉ String.list_ascii_of_string "Local".
Proof.
  cbn. intros H.
  repeat (apply elem_of_cons in H as [H|H]; [discriminate|]).
  by apply elem_of_nil in H.
Qed.

(** X16. The environment label of the info page never contains a dash. It
    is 'Local' when [WEBSITE_SITE_NAME] is unset or empty; otherwise it is
    the site name up to its first dash (what follows starts with the dash),
    and the whole site name when that has no dash. *)
Theorem infoEnv_label (env : Env) :
  (("-"%char) ∉ String.list_ascii_of_string (Pages.infoEnv env))
  ∧ (match env !! "WEBSITE_SITE_NAME" with
     | None | Some "" => Pages.infoEnv env = "Local"
     | Some name =>
         (∃ rest, name = Pages.infoEnv env +:+ rest
                  ∧ (rest = "" ∨ ∃ r, rest = String "-" r))
         ∧ (("-"%char) ∉ String.list_ascii_of_string name → Pages.infoEnv env = name)
     end).
Proof.
  unfold Pages.infoEnv.
  destruct (env !! "WEBSITE_SITE_NAME") as [[|a name]|];
    [split; [apply local_no_dash|done]| |split; [apply local_no_dash|done]].
  change (truthy (Some (String a name))) with true. cbv iota.
  change (default "" (Some (String a name))) with (String a name).
  split_and!.
  - apply beforeDash_no_dash.
  - apply beforeDash_split.
  - apply beforeDash_id.
Qed.

Lemma infoEnv_label_witness : Pages.infoEnv Samples.siteEnv = "demoapp".
Proof.
  pose proof (infoEnv_label Samples.siteEnv) as [_ H].
  change (Samples.siteEnv !! "WEBSITE_SITE_NAME") with (Some "demoapp") in H.
  destruct H as [_ H]. apply H.
  cbn. intros Hin.
  repeat (apply elem_of_cons in Hin as [Hin|Hin]; [discriminate|]).
  by apply elem_of_nil in Hin.
Defined.

Example infoEnv_example :
  Pages.infoEnv {[ "WEBSITE_SITE_NAME" := "nodejs-demoapp-prod" ]} = "nodejs".
Proof. vm_compute. reflexivity. Qed.

(** ** Request logging *)

Lemma prefix_append s1 s2 :
  String.prefix s1 s2 = true ↔ ∃ rest, s2 = s1 +:+ rest.
Proof.
  revert s2. induction s1 as [|a s1 IH]; intros s2; simpl.
  - rewrite (proj2 (String.prefix_correct "" s2)); [|by destruct s2].
    split; eauto.
  - destruct s2 as [|b s2].
    + split; [|by intros [? [=]]].
      intros H. apply String.prefix_correct in H. done.
    + split.
      * intros H. apply String.prefix_correct in H. simpl in H.
        injection H as -> H. apply String.prefix_correct, IH in H as [rest ->].
        eauto.
      * intros [rest [= -> ->]]. apply String.prefix_correct. simpl. f_equal.
        apply String.prefix_correct, IH. eauto.
Qed.

Lemma indexOf_zero s needle :
  needle ≠ "" → indexOf s needle = 0%Z ↔ String.prefix needle s = true.
Proof.
  intros Hne. unfold indexOf. rewrite String.prefix_correct.
  destruct (String.index 0 needle s) as [n|] eqn:E.
  - split.
    + intros Hn. assert (n = 0)%nat as -> by lia.
      by apply String.index_correct1 in E.
    + intros Hs. destruct n as [|n]; [done|].
      exfalso. eapply (String.index_correct2 _ _ _ _ E 0%nat); [lia|lia|done].
  - split; [done|]. intros Hs. exfalso.
    by eapply (String.index_correct3 0 0 _ _ E Hne).
Qed.

(** X17. The logger's [skip] function leaves out exactly the requests whose
    path begins with [/signin]: the callback, and any other path with that
    beginning. *)
Theorem loggerSkip_prefix path :
  loggerSkip path = true ↔ ∃ rest, path = "/signin" +:+ rest.
Proof.
  unfold loggerSkip. rewrite bool_decide_eq_true, indexOf_zero by done.
  apply prefix_append.
Qed.

(** ** The PKCE codes of the inline flow *)

(** Induction on strings three characters at a time, as the encoder reads
    them. *)
Lemma string_ind3 (P : string → Prop) :
  P "" → (∀ a, P (String a "")) → (∀ a b, P (String a (String b ""))) →
  (∀ a b c s, P s → P (String a (String b (String c s)))) →
  ∀ s, P s.
Proof.
  intros H0 H1 H2 H3. fix IH 1.
  intros [|a [|b [|c s]]]; [exact H0|apply H1|apply H2|apply H3, IH].
Qed.

Lemma b64_encode_length alphabet s :
  String.length (b64_encode alphabet "" s) = ((4 * String.length s + 2) / 3)%nat.
Proof.
  induction s as [|a|a b|a b c s IH] using string_ind3; try reflexivity.
  cbn [b64_encode String.length]. rewrite IH.
  replace (4 * S (S (S (String.length s))) + 2)%nat
    with ((4 * String.length s + 2) + 4 * 3)%nat by lia.
  rewrite Nat.div_add by lia. lia.
Qed.

Lemma get_elem k s c :
  String.get k s = Some c → c ∈ String.list_ascii_of_string s.
Proof.
  revert k. induction s as [|a s IH]; intros k; simpl; [done|].
  rewrite elem_of_cons.
  destruct k as [|k]; [intros [= ->]; by left|].
  intros H. right. eauto.
Qed.

Lemma get_Some k s : (k < String.length s)%nat → is_Some (String.get k s).
Proof.
  revert k. induction s as [|a s IH]; intros k; simpl; [lia|].
  destruct k as [|k]; [eauto|]. intros H. apply IH. lia.
Qed.

Lemma b64_digit_elem n :
  (n < 64)%N → b64_digit b64_url n ∈ String.list_ascii_of_string b64_url.
Proof.
  intros Hn. unfold b64_digit.
  destruct (get_Some (N.to_nat n) b64_url) as [c Hc].
  { change (String.length b64_url) with 64%nat. lia. }
  rewrite Hc. exact (get_elem _ _ _ Hc).
Qed.

Lemma b64url_alphabet s :
  Forall (λ c, c ∈ String.list_ascii_of_string b64_url)
         (String.list_ascii_of_string (base64url s)).
Proof.
  unfold base64url.
  induction s as [|a|a b|a b c s IH] using string_ind3.
  - constructor.
  - pose proof (N_ascii_bounded a).
    cbn -[b64_digit b64_url N.div N.modulo N.mul N.add]; unfold String.append;
      cbn -[b64_digit b64_url N.div N.modulo N.mul N.add].
    repeat (apply Forall_cons_2; [apply b64_digit_elem|]); [..|apply Forall_nil_2].
    + apply N.Div0.div_lt_upper_bound; lia.
    + pose proof (N.mod_lt (N_of_ascii a) 4). lia.
  - pose proof (N_ascii_bounded a). pose proof (N_ascii_bounded b).
    cbn -[b64_digit b64_url N.div N.modulo N.mul N.add]; unfold String.append;
      cbn -[b64_digit b64_url N.div N.modulo N.mul N.add].
    repeat (apply Forall_cons_2; [apply b64_digit_elem|]); [..|apply Forall_nil_2].
    + apply N.Div0.div_lt_upper_bound; lia.
    + pose proof (N.mod_lt (N_of_ascii a) 4).
      assert (N_of_ascii b / 16 < 16)%N by (apply N.Div0.div_lt_upper_bound; lia). lia.
    + pose proof (N.mod_lt (N_of_ascii b) 16). lia.
  - pose proof (N_ascii_bounded a). pose proof (N_ascii_bounded b).
    pose proof (N_ascii_bounded c).
    cbn -[b64_digit b64_url N.div N.modulo N.mul N.add]; unfold String.append;
      cbn -[b64_digit b64_url N.div N.modulo N.mul N.add].
    repeat (apply Forall_cons_2; [apply b64_digit_elem|]); [..|apply IH].
    + apply N.Div0.div_lt_upper_bound; lia.
    + pose proof (N.mod_lt (N_of_ascii a) 4).
      assert (N_of_ascii b / 16 < 16)%N by (apply N.Div0.div_lt_upper_bound; lia). lia.
    + pose proof (N.mod_lt (N_of_ascii b) 16).
      assert (N_of_ascii c / 64 < 4)%N by (apply N.Div0.div_lt_upper_bound; lia). lia.
    + apply N.mod_lt. lia.
Qed.

(** X19. The codes of the inline flow: the verifier made of 32 random
    bytes, and the challenge made of a 32-byte hash, are 43 characters long
    each and consist of letters, digits, [-] and [_] only, with no padding. *)
Theorem pkce_codes_are_url_safe (sha256 : string → string) randomBytes :
  String.length randomBytes = 32%nat →
  String.length (sha256 (Inline.generateCodeVerifier randomBytes)) = 32%nat →
  let v := Inline.generateCodeVerifier randomBytes in
  let c := Inline.generateCodeChallenge sha256 v in
  String.length v = 43%nat ∧ String.length c = 43%nat
  ∧ Forall (λ x, x ∈ String.list_ascii_of_string b64_url)
           (String.list_ascii_of_string v ++ String.list_ascii_of_string c).
Proof.
  intros Hr Hh v c. subst v c.
  unfold Inline.generateCodeVerifier, Inline.generateCodeChallenge, base64url.
  rewrite !b64_encode_length, Hr.
  unfold Inline.generateCodeVerifier, base64url in Hh. rewrite Hh.
  split_and!; try reflexivity.
  apply Forall_app. split; apply b64url_alphabet.
Qed.

Lemma pkce_codes_are_url_safe_witness :
  let v := Inline.generateCodeVerifier Samples.random32 in
  let c := Inline.generateCodeChallenge Samples.hash32 v in
  String.length v = 43%nat ∧ String.length c = 43%nat
  ∧ Forall (λ x, x ∈ String.list_ascii_of_string b64_url)
           (String.list_ascii_of_string v ++ String.list_ascii_of_string c).
Proof.
  apply (pkce_codes_are_url_safe Samples.hash32 Samples.random32); reflexivity.
Defined.
